(** * FBCM load-setup software: the instrument layer of [mainapp.py]

    A shallow embedding of the SCPI client, the configuration loader, the
    initialization worker, the telemetry logger and the manual command
    channel, together with the properties of the design document that
    concern them.

    Conventions of the embedding.
    - A Python [int] is a [Z], a Python [float] a binary64 [float], a [str]
      a [string]; all text is ASCII, as the instrument protocol prescribes,
      so [encode('ascii')] and [decode('ascii')] never raise.
    - A method that mutates [self] and may raise is a function
      [S -> res A * S]: the state is kept when an exception leaves it.
    - The network is an oracle: for every address it tells whether the
      connection is accepted, and for every list of commands sent on a
      connection what [sendall] and [recv] do after the last of them.
    - [//] on integers is [Z.div], both round down.
    - The widgets are kept as far as the program writes results to them
      (dialogs, status line, response area, display readings); the calls
      into Qt raise nothing.
    - The event loop dispatches clicks, timer ticks and ready tasks one at a
      time.  Nothing that a coroutine of the program awaits is a future, and
      nothing that [log_data] calls runs a nested loop. *)

From Stdlib Require Import ZArith List String Ascii Bool Lia.
From Stdlib Require Import PrimFloat FloatOps SpecFloat Uint63.
From Stdlib Require Import DecimalString.
From Stdlib Require Import Sorting.Sorted.
Import ListNotations.
Open Scope string_scope.
Open Scope Z_scope.

(** ** Python values and exceptions *)

(** [str(n)] of an [int], as an f-string inserts it. *)
Definition str_int (n : Z) : string := NilZero.string_of_int (Z.to_int n).

(** [c.isspace()] on an ASCII character. *)
Definition isspace (c : ascii) : bool :=
  let n := nat_of_ascii c in
  (((9 <=? n) && (n <=? 13)) || ((28 <=? n) && (n <=? 32)))%nat.

Fixpoint lstrip (s : string) : string :=
  match s with
  | EmptyString => EmptyString
  | String c s' => if isspace c then lstrip s' else s
  end.

Fixpoint rstrip (s : string) : string :=
  match s with
  | EmptyString => EmptyString
  | String c s' =>
      match rstrip s' with
      | EmptyString => if isspace c then EmptyString else String c EmptyString
      | r => String c r
      end
  end.

(** [s.strip()]. *)
Definition strip (s : string) : string := rstrip (lstrip s).

(** Truth value of a [str]: the empty string is false. *)
Definition truthy (s : string) : bool :=
  match s with EmptyString => false | _ => true end.

(** The exception classes the program meets.  [OSError] is [socket.error];
    [ConnectionError] and [FileNotFoundError] are subclasses of it. *)
Inductive exn : Type :=
| OSError (msg : string)
| ConnectionError (msg : string)
| FileNotFoundError (msg : string)
| ParseError
| AttributeError
| TypeError
| ValueError.

(** [except socket.error as e]: the handler's [str(e)] when [e] is caught. *)
Definition as_socket_error (e : exn) : option string :=
  match e with
  | OSError m | ConnectionError m | FileNotFoundError m => Some m
  | _ => None
  end.

(** [except ConnectionError as e]. *)
Definition as_ConnectionError (e : exn) : option string :=
  match e with ConnectionError m => Some m | _ => None end.

(** [str(e)] for [except Exception as e]. *)
Definition str_exn (e : exn) : string :=
  match e with
  | OSError m | ConnectionError m | FileNotFoundError m => m
  | ParseError => "ParseError"
  | AttributeError => "AttributeError"
  | TypeError => "TypeError"
  | ValueError => "ValueError"
  end.

Inductive res (A : Type) : Type :=
| Ok (a : A)
| Raise (e : exn).
Arguments Ok {A} a.
Arguments Raise {A} e.

(** ** Stateful code that may raise *)

Definition M (S A : Type) : Type := S -> res A * S.

Definition ret {S A : Type} (a : A) : M S A := fun s => (Ok a, s).

Definition bind {S A B : Type} (m : M S A) (k : A -> M S B) : M S B :=
  fun s => match m s with
           | (Ok a, s') => k a s'
           | (Raise e, s') => (Raise e, s')
           end.

Definition raise {S A : Type} (e : exn) : M S A := fun s => (Raise e, s).

Definition get {S : Type} : M S S := fun s => (Ok s, s).

Definition modify {S : Type} (f : S -> S) : M S unit := fun s => (Ok tt, f s).

(** [try: m  except <class> as e: h e]; [sel] selects the caught class and
    gives [str(e)], the other exceptions go on. *)
Definition try_except {S A : Type} (m : M S A)
    (sel : exn -> option string) (h : string -> M S A) : M S A :=
  fun s => match m s with
           | (Ok a, s') => (Ok a, s')
           | (Raise e, s') =>
               match sel e with
               | Some msg => h msg s'
               | None => (Raise e, s')
               end
           end.

Declare Scope py_scope.
Delimit Scope py_scope with py.
Notation "x <- m ;; k" := (bind m (fun x => k))
  (at level 61, m at next level, right associativity) : py_scope.
Notation "m ;; k" := (bind m (fun _ => k))
  (at level 61, right associativity) : py_scope.
Open Scope py_scope.

(** [for x in xs: body x]. *)
Fixpoint for_each {S X : Type} (xs : list X) (body : X -> M S unit) : M S unit :=
  match xs with
  | [] => ret tt
  | x :: xs' => body x ;; for_each xs' body
  end.

(** Run a computation on one component of a larger state. *)
Definition zoom {S T A : Type} (proj : S -> T) (inj : T -> S -> S)
    (m : M T A) : M S A :=
  fun s => let (r, t) := m (proj s) in (r, inj t s).

(** ** The device model *)

(** A channel of an electronic load: the dict with keys
    [number], [name], [type], [value]. *)
Record channel : Type := Channel {
  number : Z;
  name : string;
  type : string;
  value : float
}.

(** A channel of a power supply: the dict with keys [number], [value]. *)
Record setting : Type := Setting {
  s_number : Z;
  s_value : float
}.

(** A device dict has either the key [channels] or the keys
    [voltage_channels] and [current_channels]. *)
Inductive kind : Type :=
| Load (chans : list channel)
| Supply (voltage_channels current_channels : list setting).

Record device : Type := Device {
  d_id : string;
  d_ip : string;
  d_port : Z;
  d_kind : kind
}.

(** [device.get('channels', [])]. *)
Definition get_channels (d : device) : list channel :=
  match d_kind d with Load cs => cs | Supply _ _ => [] end.

(** ** The network *)

Inductive received : Type :=
| Bytes (raw : string)      (* [recv(4096)] returns these bytes *)
| RecvFault (e : string).   (* [recv] raises [socket.error], a timeout included *)

(** What an instrument at some address does.  The lists are the commands
    written on the connection so far, the oldest first, the current one
    last. *)
Record peer : Type := Peer {
  refuses : option string;                  (* [connect] raises [socket.error] *)
  send_fault : list string -> option string; (* [sendall] raises [socket.error] *)
  recv_result : list string -> received
}.

Definition network : Type := string -> Z -> peer.

(** A socket object: created and not connected, or connected to a peer that
    has been sent the commands [sent]. *)
Inductive socket : Type :=
| Unconnected
| Connected (p : peer) (sent : list string).

(** ** [class SCPIClient] *)

Record SCPIClient : Type := Client {
  ip : string;
  port : Z;
  sock : option socket;
  channels : list channel
}.

Definition new_SCPIClient (ip : string) (port : Z) : SCPIClient :=
  {| ip := ip; port := port; sock := None; channels := [] |}.

Definition set_sock (s : option socket) (self : SCPIClient) : SCPIClient :=
  {| ip := ip self; port := port self; sock := s; channels := channels self |}.

Definition set_channels (cs : list channel) (self : SCPIClient) : SCPIClient :=
  {| ip := ip self; port := port self; sock := sock self; channels := cs |}.

(** The commands that reached the instrument over the client's current
    connection. *)
Definition sent_on (self : SCPIClient) : list string :=
  match sock self with
  | Some (Connected _ sent) => sent
  | _ => []
  end.

Section Link.

Variable net : network.

(** [self.sock.connect((self.ip, self.port))]. *)
Definition sock_connect : M SCPIClient unit :=
  fun self =>
    let p := net (ip self) (port self) in
    match refuses p with
    | Some e => (Raise (OSError e), self)
    | None => (Ok tt, set_sock (Some (Connected p [])) self)
    end.

(** [self.sock.sendall(f"{command}\n".encode('ascii'))]. *)
Definition sock_sendall (command : string) : M SCPIClient unit :=
  fun self =>
    match sock self with
    | Some (Connected p sent) =>
        match send_fault p (sent ++ [command]) with
        | Some e => (Raise (OSError e), self)
        | None => (Ok tt, set_sock (Some (Connected p (sent ++ [command]))) self)
        end
    | Some Unconnected => (Raise (OSError "[Errno 32] Broken pipe"), self)
    | None => (Raise AttributeError, self)
    end.

(** [self.sock.recv(4096)]. *)
Definition sock_recv : M SCPIClient string :=
  fun self =>
    match sock self with
    | Some (Connected p sent) =>
        match recv_result p sent with
        | Bytes raw => (Ok raw, self)
        | RecvFault e => (Raise (OSError e), self)
        end
    | Some Unconnected =>
        (Raise (OSError "[Errno 107] Transport endpoint is not connected"), self)
    | None => (Raise AttributeError, self)
    end.

Definition connect : M SCPIClient unit :=
  modify (set_sock (Some Unconnected)) ;;
  try_except sock_connect as_socket_error
    (fun e => self <- get ;;
              raise (ConnectionError ("Connection error to " ++ ip self ++ ": " ++ e))).

Definition read_response : M SCPIClient string :=
  try_except
    (raw <- sock_recv ;; ret (strip raw))
    as_socket_error
    (fun e => self <- get ;;
              raise (ConnectionError
                       ("Error reading response from " ++ ip self ++ ": " ++ e))).

Definition send_command (command : string) : M SCPIClient string :=
  (self <- get ;;
   match sock self with
   | None => connect
   | Some _ => ret tt
   end) ;;
  try_except
    (sock_sendall command ;; read_response)
    as_socket_error
    (fun e => self <- get ;;
              raise (ConnectionError
                       ("Error sending command to " ++ ip self ++ ": " ++ e))).

Definition close (self : SCPIClient) : SCPIClient :=
  match sock self with
  | Some _ => set_sock None self
  | None => self
  end.

End Link.

(** ** [class AsyncWorker] *)

(** The four Qt signals of the worker, with the value they carry. *)
Inductive signal : Type :=
| progress (v : Z)
| result (msg : string)
| error (msg : string)
| done.

Record AsyncWorker : Type := Worker {
  devices : list device;
  scpi_clients : list SCPIClient;
  emitted : list signal     (* the signals emitted so far, the oldest first *)
}.

Definition new_AsyncWorker (devices : list device) : AsyncWorker :=
  {| devices := devices; scpi_clients := []; emitted := [] |}.

Definition emit_on (sg : signal) (self : AsyncWorker) : AsyncWorker :=
  {| devices := devices self;
     scpi_clients := scpi_clients self;
     emitted := emitted self ++ [sg] |}.

Definition append_client (c : SCPIClient) (self : AsyncWorker) : AsyncWorker :=
  {| devices := devices self;
     scpi_clients := scpi_clients self ++ [c];
     emitted := emitted self |}.

(** [enumerate(xs)], counting from [i]. *)
Fixpoint enumerate_from {X : Type} (i : Z) (xs : list X) : list (Z * X) :=
  match xs with
  | [] => []
  | x :: xs' => (i, x) :: enumerate_from (i + 1) xs'
  end.

Definition enumerate {X : Type} (xs : list X) : list (Z * X) := enumerate_from 0 xs.

(** [client = SCPIClient(device['ip'], device['port'])] followed by
    [client.channels = device.get('channels', [])]. *)
Definition make_client (device : device) : SCPIClient :=
  let client := new_SCPIClient (d_ip device) (d_port device) in
  set_channels (get_channels device) client.

Section Worker.

Variable net : network.

(** How an f-string prints a [float]. *)
Variable str_float : float -> string.

(** The body of the loop of [run] works on the worker and on its local
    variable [client]. *)
Definition scope : Type := (AsyncWorker * SCPIClient)%type.

Definition on_client {A : Type} (m : M SCPIClient A) : M scope A :=
  zoom snd (fun c (s : scope) => (fst s, c)) m.

Definition on_self {A : Type} (m : M AsyncWorker A) : M scope A :=
  zoom fst (fun w (s : scope) => (w, snd s)) m.

Definition emit (sg : signal) : M AsyncWorker unit := modify (emit_on sg).

(** A block that declares the local [client]. *)
Definition with_client {A : Type} (client : SCPIClient) (m : M scope A)
  : M AsyncWorker A :=
  fun self => let (r, s) := m (self, client) in (r, fst s).

Definition initialize_channel (channel : channel) : M SCPIClient unit :=
  let number := number channel in
  let type_ := type channel in
  let value := value channel in
  send_command net ("CHAN " ++ str_int number) ;;
  send_command net ("FUNC " ++ type_) ;;
  if (type_ =? "RES")%string then
    send_command net ("RES " ++ str_float value) ;; ret tt
  else if (type_ =? "CURR")%string then
    send_command net ("CURR " ++ str_float value) ;; ret tt
  else if (type_ =? "VOLT")%string then
    send_command net ("VOLT " ++ str_float value) ;; ret tt
  else ret tt.

Definition initialize_voltage_channel (channel : setting) : M SCPIClient unit :=
  let number := s_number channel in
  let value := s_value channel in
  send_command net ("VOLT " ++ str_int number ++ "," ++ str_float value) ;; ret tt.

Definition initialize_current_channel (channel : setting) : M SCPIClient unit :=
  let number := s_number channel in
  let value := s_value channel in
  send_command net ("CURR " ++ str_int number ++ "," ++ str_float value) ;; ret tt.

(** The [try] block of [run] for one device. *)
Definition attempt (device : device) : M scope unit :=
  on_client (connect net) ;;
  response <- on_client (send_command net "*IDN?") ;;
  if truthy response then
    on_self (emit (result ("Cihaz " ++ d_id device ++ " bağlı: " ++ response))) ;;
    match d_kind device with
    | Load _ =>
        s <- get ;;
        for_each (channels (snd s)) (fun channel => on_client (initialize_channel channel))
    | Supply voltage_channels current_channels =>
        for_each voltage_channels
          (fun channel => on_client (initialize_voltage_channel channel)) ;;
        for_each current_channels
          (fun channel => on_client (initialize_current_channel channel))
    end ;;
    s <- get ;;
    on_self (modify (append_client (snd s)))
  else
    on_self (emit (result ("Cihaz " ++ d_id device ++ " bağlanamadı."))).

(** One turn of the loop of [run]. *)
Definition turn (total_devices : Z) (idx : Z) (device : device) : M AsyncWorker unit :=
  let client := make_client device in
  with_client client
    (try_except (attempt device) as_ConnectionError
       (fun e => on_self (emit (error e)))) ;;
  emit (progress ((idx + 1) * 100 / total_devices)).

Definition run : M AsyncWorker unit :=
  self <- get ;;
  let total_devices := Z.of_nat (List.length (devices self)) in
  for_each (enumerate (devices self))
    (fun '(idx, device) => turn total_devices idx device) ;;
  emit done.

End Worker.

(** * The configuration document *)

(** An element of the parsed document: tag, text ([None] when the element
    holds no text) and children in document order. *)
#[warnings="-register-all"]
Inductive element : Type :=
| Element (tag : string) (text : option string) (children : list element).

Definition tag_of (e : element) : string := let (t, _, _) := e in t.
Definition text_of (e : element) : option string := let (_, x, _) := e in x.
Definition children_of (e : element) : list element := let (_, _, cs) := e in cs.

(** [e.findall(tag)]: the children with that tag. *)
Definition findall (tag : string) (e : element) : list element :=
  filter (fun c => (tag_of c =? tag)%string) (children_of e).

(** [e.find(tag)]: the first of them, or [None]. *)
Definition find (tag : string) (e : element) : option element :=
  head (findall tag e).

(** [e.findall('outer/inner')]. *)
Definition findall_path (outer inner : string) (e : element) : list element :=
  flat_map (findall inner) (findall outer e).

(** What [ET.parse] meets at a path. *)
Inductive file : Type :=
| Absent                       (* no such file: [FileNotFoundError] *)
| Unparsable                   (* not a document: [ET.ParseError] *)
| Document (root : element).

(** The dicts built by the loader.  A text field holds the element's text,
    which is [None] for an empty element; a [device] of the worker is such a
    dict whose text fields hold text ([as_device] below). *)
Record channel_info : Type := ChannelInfo {
  ci_number : Z;
  ci_name : option string;
  ci_type : option string;
  ci_value : float
}.

Inductive device_info : Type :=
| LoadInfo (id ip : option string) (port : Z) (channels : list channel_info)
| SupplyInfo (id ip : option string) (port : Z)
    (voltage_channels current_channels : list setting).

Definition as_channel (c : channel_info) : option channel :=
  match ci_name c, ci_type c with
  | Some name, Some type =>
      Some {| number := ci_number c; name := name; type := type; value := ci_value c |}
  | _, _ => None
  end.

Fixpoint all_some {X : Type} (xs : list (option X)) : option (list X) :=
  match xs with
  | [] => Some []
  | Some x :: xs' => option_map (cons x) (all_some xs')
  | None :: _ => None
  end.

Definition as_device (d : device_info) : option device :=
  match d with
  | LoadInfo (Some id) (Some ip) port channels =>
      option_map (fun cs => {| d_id := id; d_ip := ip; d_port := port; d_kind := Load cs |})
        (all_some (map as_channel channels))
  | SupplyInfo (Some id) (Some ip) port voltage_channels current_channels =>
      Some {| d_id := id; d_ip := ip; d_port := port;
              d_kind := Supply voltage_channels current_channels |}
  | _ => None
  end.

(** Code that may raise and has no state: [try_ r k] goes on with [k] when
    [r] is a value. *)
Definition try_ {A B : Type} (r : res A) (k : A -> res B) : res B :=
  match r with
  | Ok a => k a
  | Raise e => Raise e
  end.

Notation "x <~ r ;; k" := (try_ r (fun x => k))
  (at level 61, r at next level, right associativity) : py_scope.

(** The call of such code from stateful code. *)
Definition call {S A : Type} (r : res A) : M S A := fun s => (r, s).

(** [ys = []; for x in xs: ys.append(f x)]. *)
Fixpoint collect {X Y : Type} (xs : list X) (f : X -> res Y) : res (list Y) :=
  match xs with
  | [] => Ok []
  | x :: xs' => y <~ f x ;; ys <~ collect xs' f ;; Ok (y :: ys)
  end.

Section Loader.

Variable fs : string -> file.

(** The built-ins [int] and [float] on a [str]; [None] is [ValueError]. *)
Variable int_of_text : string -> option Z.
Variable float_of_text : string -> option float.

(** [e.find(tag).text]. *)
Definition find_text (e : element) (tag : string) : res (option string) :=
  match find tag e with
  | Some c => Ok (text_of c)
  | None => Raise AttributeError
  end.

(** [e.find(tag).findall(inner)]. *)
Definition find_findall (e : element) (tag inner : string) : res (list element) :=
  match find tag e with
  | Some c => Ok (findall inner c)
  | None => Raise AttributeError
  end.

(** [int(x)] and [float(x)] on a [str] or [None]. *)
Definition int_ (x : option string) : res Z :=
  match x with
  | None => Raise TypeError
  | Some s => match int_of_text s with
              | Some n => Ok n
              | None => Raise ValueError
              end
  end.

Definition float_ (x : option string) : res float :=
  match x with
  | None => Raise TypeError
  | Some s => match float_of_text s with
              | Some v => Ok v
              | None => Raise ValueError
              end
  end.

Definition ET_parse (file_path : string) : res element :=
  match fs file_path with
  | Absent =>
      Raise (FileNotFoundError
               ("[Errno 2] No such file or directory: '" ++ file_path ++ "'"))
  | Unparsable => Raise ParseError
  | Document root => Ok root
  end.

Definition load_channel (channel : element) : res channel_info :=
  t <~ find_text channel "Number" ;; number <~ int_ t ;;
  name <~ find_text channel "Name" ;;
  type <~ find_text channel "Type" ;;
  t <~ find_text channel "Value" ;; value <~ float_ t ;;
  Ok {| ci_number := number; ci_name := name; ci_type := type; ci_value := value |}.

Definition supply_channel (channel : element) : res setting :=
  t <~ find_text channel "Number" ;; number <~ int_ t ;;
  t <~ find_text channel "Value" ;; value <~ float_ t ;;
  Ok {| s_number := number; s_value := value |}.

Definition electronic_load (device : element) : res device_info :=
  id <~ find_text device "ID" ;;
  ip <~ find_text device "IP" ;;
  t <~ find_text device "Port" ;; port <~ int_ t ;;
  channels <~ find_findall device "Channels" "Channel" ;;
  channels <~ collect channels load_channel ;;
  Ok (LoadInfo id ip port channels).

Definition power_supply (device : element) : res device_info :=
  id <~ find_text device "ID" ;;
  ip <~ find_text device "IP" ;;
  t <~ find_text device "Port" ;; port <~ int_ t ;;
  channels <~ find_findall device "VoltageValues" "Channel" ;;
  voltage_channels <~ collect channels supply_channel ;;
  channels <~ find_findall device "CurrentValues" "Channel" ;;
  current_channels <~ collect channels supply_channel ;;
  Ok (SupplyInfo id ip port voltage_channels current_channels).

(** The two loops of [read_devices_from_xml] over the root. *)
Definition devices_of_root (root : element) : res (list device_info) :=
  loads <~ collect (findall_path "ElectronicLoads" "ElectronicLoad" root)
             electronic_load ;;
  supplies <~ collect (findall_path "PowerSupplys" "PowerSupply" root)
                power_supply ;;
  Ok (loads ++ supplies)%list.

Definition read_devices_from_xml (file_path : string) : res (list device_info) :=
  root <~ ET_parse file_path ;;
  devices_of_root root.

End Loader.

(** * [class MainWindow] *)

(** A call of [QMessageBox.critical] or [QMessageBox.information]. *)
Inductive dialog : Type :=
| critical (title text : string)
| information (title text : string).

(** A call of [update_logging_display]. *)
Record reading : Type := Reading {
  r_ip : string;
  r_channel : Z;
  r_current : string;
  r_voltage : string;
  r_resistance : string
}.

(** The window, together with what it acts upon: the timers it created, the
    file [log_data.csv], the standard output and the widgets it writes to. *)
Record MainWindow : Type := Window {
  mw_scpi_clients : list SCPIClient;
  mw_logging_timer : option nat;          (* [self.logging_timer]: a timer of [timers] *)
  mw_devices : option (list device_info);
  timers : list bool;                     (* the [QTimer]s created so far; [true]: running *)
  csv_file : list (list string);          (* the rows of [log_data.csv] *)
  stdout : list string;
  dialogs : list dialog;
  display : list reading;
  response_output : list string;
  manual_command_status : string;
  manual_client : option SCPIClient       (* the client of the last manual command *)
}.

Definition new_MainWindow : MainWindow :=
  {| mw_scpi_clients := []; mw_logging_timer := None; mw_devices := None;
     timers := []; csv_file := []; stdout := []; dialogs := []; display := [];
     response_output := []; manual_command_status := EmptyString; manual_client := None |}.

Definition set_scpi_clients (v : list SCPIClient) (w : MainWindow) : MainWindow :=
  {| mw_scpi_clients := v; mw_logging_timer := mw_logging_timer w;
     mw_devices := mw_devices w; timers := timers w; csv_file := csv_file w;
     stdout := stdout w; dialogs := dialogs w; display := display w;
     response_output := response_output w;
     manual_command_status := manual_command_status w;
     manual_client := manual_client w |}.

Definition set_logging_timer (v : option nat) (w : MainWindow) : MainWindow :=
  {| mw_scpi_clients := mw_scpi_clients w; mw_logging_timer := v;
     mw_devices := mw_devices w; timers := timers w; csv_file := csv_file w;
     stdout := stdout w; dialogs := dialogs w; display := display w;
     response_output := response_output w;
     manual_command_status := manual_command_status w;
     manual_client := manual_client w |}.

Definition set_devices (v : option (list device_info)) (w : MainWindow) : MainWindow :=
  {| mw_scpi_clients := mw_scpi_clients w; mw_logging_timer := mw_logging_timer w;
     mw_devices := v; timers := timers w; csv_file := csv_file w;
     stdout := stdout w; dialogs := dialogs w; display := display w;
     response_output := response_output w;
     manual_command_status := manual_command_status w;
     manual_client := manual_client w |}.

Definition set_timers (v : list bool) (w : MainWindow) : MainWindow :=
  {| mw_scpi_clients := mw_scpi_clients w; mw_logging_timer := mw_logging_timer w;
     mw_devices := mw_devices w; timers := v; csv_file := csv_file w;
     stdout := stdout w; dialogs := dialogs w; display := display w;
     response_output := response_output w;
     manual_command_status := manual_command_status w;
     manual_client := manual_client w |}.

Definition set_csv_file (v : list (list string)) (w : MainWindow) : MainWindow :=
  {| mw_scpi_clients := mw_scpi_clients w; mw_logging_timer := mw_logging_timer w;
     mw_devices := mw_devices w; timers := timers w; csv_file := v;
     stdout := stdout w; dialogs := dialogs w; display := display w;
     response_output := response_output w;
     manual_command_status := manual_command_status w;
     manual_client := manual_client w |}.

Definition set_stdout (v : list string) (w : MainWindow) : MainWindow :=
  {| mw_scpi_clients := mw_scpi_clients w; mw_logging_timer := mw_logging_timer w;
     mw_devices := mw_devices w; timers := timers w; csv_file := csv_file w;
     stdout := v; dialogs := dialogs w; display := display w;
     response_output := response_output w;
     manual_command_status := manual_command_status w;
     manual_client := manual_client w |}.

Definition set_dialogs (v : list dialog) (w : MainWindow) : MainWindow :=
  {| mw_scpi_clients := mw_scpi_clients w; mw_logging_timer := mw_logging_timer w;
     mw_devices := mw_devices w; timers := timers w; csv_file := csv_file w;
     stdout := stdout w; dialogs := v; display := display w;
     response_output := response_output w;
     manual_command_status := manual_command_status w;
     manual_client := manual_client w |}.

Definition set_display (v : list reading) (w : MainWindow) : MainWindow :=
  {| mw_scpi_clients := mw_scpi_clients w; mw_logging_timer := mw_logging_timer w;
     mw_devices := mw_devices w; timers := timers w; csv_file := csv_file w;
     stdout := stdout w; dialogs := dialogs w; display := v;
     response_output := response_output w;
     manual_command_status := manual_command_status w;
     manual_client := manual_client w |}.

Definition set_response_output (v : list string) (w : MainWindow) : MainWindow :=
  {| mw_scpi_clients := mw_scpi_clients w; mw_logging_timer := mw_logging_timer w;
     mw_devices := mw_devices w; timers := timers w; csv_file := csv_file w;
     stdout := stdout w; dialogs := dialogs w; display := display w;
     response_output := v;
     manual_command_status := manual_command_status w;
     manual_client := manual_client w |}.

Definition set_manual_command_status (v : string) (w : MainWindow) : MainWindow :=
  {| mw_scpi_clients := mw_scpi_clients w; mw_logging_timer := mw_logging_timer w;
     mw_devices := mw_devices w; timers := timers w; csv_file := csv_file w;
     stdout := stdout w; dialogs := dialogs w; display := display w;
     response_output := response_output w;
     manual_command_status := v;
     manual_client := manual_client w |}.

Definition set_manual_client (v : option SCPIClient) (w : MainWindow) : MainWindow :=
  {| mw_scpi_clients := mw_scpi_clients w; mw_logging_timer := mw_logging_timer w;
     mw_devices := mw_devices w; timers := timers w; csv_file := csv_file w;
     stdout := stdout w; dialogs := dialogs w; display := display w;
     response_output := response_output w;
     manual_command_status := manual_command_status w;
     manual_client := v |}.

(** [QMessageBox.critical(self, title, text)] and its sibling. *)
Definition show (d : dialog) : M MainWindow unit :=
  modify (fun w => set_dialogs (dialogs w ++ [d]) w).

(** [print(line)]. *)
Definition print (line : string) : M MainWindow unit :=
  modify (fun w => set_stdout (stdout w ++ [line]) w).

Definition as_FileNotFoundError (e : exn) : option string :=
  match e with FileNotFoundError m => Some m | _ => None end.

Definition as_ParseError (e : exn) : option string :=
  match e with ParseError => Some "ParseError" | _ => None end.

Section LoadXml.

Variable fs : string -> file.
Variable int_of_text : string -> option Z.
Variable float_of_text : string -> option float.

(** [load_xml], the path being the text of the input field.  The grid of
    labels that [setup_logging_display] builds is presentation and is left
    out; it raises nothing.  The two [except] clauses are nested here: their
    handlers raise nothing, so no handler's exception meets the other one. *)
Definition load_xml (file_path : string) : M MainWindow unit :=
  if negb (truthy file_path) then
    show (critical "Hata" "Lütfen geçerli bir XML dosya yolu girin.")
  else
    try_except
      (try_except
         (devices <- call (read_devices_from_xml fs int_of_text float_of_text file_path) ;;
          modify (set_devices (Some devices)) ;;
          show (information "Başarılı" "XML dosyası başarıyla yüklendi."))
         as_FileNotFoundError
         (fun _ => show (critical "Hata" ("XML dosyası bulunamadı: " ++ file_path))))
      as_ParseError
      (fun _ => show (critical "Hata" ("XML dosyası okunamadı: " ++ file_path))).

End LoadXml.

(** * The telemetry logger and the manual command *)

(** The header of [log_data.csv]. *)
Definition fieldnames : list string :=
  ["Time"; "IP"; "Channel"; "Current"; "Voltage"; "Resistance"].

(** [open(self.csv_file, 'w')]: the file is created empty or truncated. *)
Definition open_w : M MainWindow unit := modify (set_csv_file []).

(** [open(self.csv_file, 'a')]: the file is created if it is missing, its
    rows are kept. *)
Definition open_a : M MainWindow unit := modify (fun w => set_csv_file (csv_file w) w).

(** [writer.writerow(row)] and [writer.writeheader()]. *)
Definition writerow (row : list string) : M MainWindow unit :=
  modify (fun w => set_csv_file (csv_file w ++ [row]) w).

Definition writeheader : M MainWindow unit := writerow fieldnames.

(** [except Exception as e]: every exception is caught. *)
Definition as_Exception (e : exn) : option string := Some (str_exn e).

(** The list with its [i]-th member replaced by [v]; it is used on the list
    of timers, with the name of a timer that exists. *)
Fixpoint assign {X : Type} (i : nat) (v : X) (xs : list X) : list X :=
  match xs, i with
  | [], _ => []
  | _ :: xs', O => v :: xs'
  | x :: xs', S i' => x :: assign i' v xs'
  end.

Definition newline : string := String "010" EmptyString.

Section Logger.

Variable net : network.
Variable int_of_text : string -> option Z.

(** The body of the loop of [log_data] works on the window and on the loop
    variable [client]. *)
Definition view : Type := (MainWindow * SCPIClient)%type.

Definition on_link {A : Type} (m : M SCPIClient A) : M view A :=
  zoom snd (fun c (s : view) => (fst s, c)) m.

Definition on_window {A : Type} (m : M MainWindow A) : M view A :=
  zoom fst (fun w (s : view) => (w, snd s)) m.

(** The labels of the grid are channel names or [Voltage Channel n] and
    [Current Channel n]; the call is recorded, the search of the grid is
    presentation. *)
Definition update_logging_display (ip : string) (channel : Z)
    (current voltage resistance : string) : M MainWindow unit :=
  modify (fun w =>
    set_display (display w ++ [ {| r_ip := ip; r_channel := channel;
                                   r_current := current; r_voltage := voltage;
                                   r_resistance := resistance |} ]) w).

(** The body of [for channel in client.channels]. *)
Definition log_channel (channel : channel) : M view unit :=
  on_link (send_command net ("CHAN " ++ str_int (number channel))) ;;
  current <- on_link (send_command net "MEASure:CURRent?") ;;
  voltage <- on_link (send_command net "MEASure:VOLTage?") ;;
  resistance <- on_link (send_command net "MEASure:RESistance?") ;;
  s <- get ;;
  let client := snd s in
  on_window (print (ip client ++ " - Channel " ++ str_int (number channel)
                    ++ " - Current: " ++ current ++ ", Voltage: " ++ voltage
                    ++ ", Resistance: " ++ resistance)) ;;
  on_window (writerow [ip client; str_int (number channel); current; voltage; resistance]) ;;
  on_window (update_logging_display (ip client) (number channel)
               current voltage resistance).

(** The body of [for client in self.scpi_clients]: the [try] statement. *)
Definition log_client : M view unit :=
  try_except
    (s <- get ;; for_each (channels (snd s)) log_channel)
    as_Exception
    (fun e => s <- get ;;
              on_window (print ("Error during logging from " ++ ip (snd s) ++ ": " ++ e))).

(** The loop over the clients; the clients are objects, what the loop does
    to one of them stays in the list. *)
Fixpoint log_clients (clients : list SCPIClient) : M MainWindow (list SCPIClient) :=
  match clients with
  | [] => ret []
  | client :: rest =>
      client' <- (fun w => let (r, s) := log_client (w, client) in
                           (match r with Ok _ => Ok (snd s) | Raise e => Raise e end,
                            fst s)) ;;
      rest' <- log_clients rest ;;
      ret (client' :: rest')
  end.

Definition log_data : M MainWindow unit :=
  open_a ;;
  w <- get ;;
  clients <- log_clients (mw_scpi_clients w) ;;
  modify (set_scpi_clients clients).

(** [QTimer(self)]: a new timer, not running; its name is returned. *)
Definition QTimer : M MainWindow nat :=
  fun w => (Ok (List.length (timers w)), set_timers (timers w ++ [false]) w).

(** [timer.start(msec)]: a timer with a negative interval is refused by Qt
    and never fires. *)
Definition QTimer_start (t : nat) (msec : Z) : M MainWindow unit :=
  modify (fun w => set_timers (assign t (0 <=? msec) (timers w)) w).

(** [timer.stop()]. *)
Definition QTimer_stop (t : nat) : M MainWindow unit :=
  modify (fun w => set_timers (assign t false (timers w)) w).

(** [async_start_logging], the text being that of the interval field.  The
    connection of [timeout] to [log_data] is in the event loop below. *)
Definition async_start_logging (text : string) : M MainWindow unit :=
  interval <- call (int_ int_of_text (Some text)) ;;
  print ("Start logging every " ++ str_int interval ++ " seconds") ;;
  t <- QTimer ;;
  modify (set_logging_timer (Some t)) ;;
  QTimer_start t (interval * 1000) ;;
  open_w ;;
  writeheader.

Definition stop_logging : M MainWindow unit :=
  w <- get ;;
  match mw_logging_timer w with
  | Some t => QTimer_stop t
  | None => ret tt
  end ;;
  print "Stop logging".

(** [async_connect_and_send_manual_command], the three texts being those of
    the input fields.  The local [client] is kept in [manual_client] when the
    coroutine ends, so that its socket can be looked at. *)
Definition manual_exchange (command : string) : M view unit :=
  on_link (connect net) ;;
  response <- on_link (send_command net command) ;;
  (if truthy response then
     on_window (modify (fun w =>
       set_response_output
         (response_output w ++ ["Komut: " ++ command ++ newline ++ "Yanıt: "
                                ++ response ++ newline]) w)) ;;
     on_window (modify (set_manual_command_status ("Komut gönderildi: " ++ response)))
   else
     on_window (modify (fun w =>
       set_response_output
         (response_output w ++ ["Komut: " ++ command ++ newline ++ "Yanıt: (Yok)"
                                ++ newline]) w)) ;;
     on_window (modify (set_manual_command_status "Komut gönderilemedi."))) ;;
  on_link (modify close).

Definition async_connect_and_send_manual_command (ip port_text command : string)
  : M MainWindow unit :=
  port <- call (int_ int_of_text (Some port_text)) ;;
  if negb (truthy ip) || (port =? 0) || negb (truthy command) then
    modify (set_manual_command_status "Lütfen geçerli bir IP, Port ve Komut girin.")
  else
    fun w =>
      let client := new_SCPIClient ip port in
      let (r, s) := manual_exchange command (w, client) in
      (r, set_manual_client (Some (snd s)) (fst s)).

End Logger.

(** * The event loop *)

(** The coroutine functions that the window schedules with
    [asyncio.ensure_future]. *)
Inductive job : Type :=
| start_job (text : string)    (* [self.async_start_logging()] *)
| log_job.                     (* [self.log_data()] *)

(** A coroutine object.  Resumed on the window, it runs up to its next
    suspension, where the rest of it waits to be resumed, or to its end. *)
Inductive pause (C : Type) : Type :=
| Finished (r : res unit)
| Suspended (rest : C).
Arguments Finished {C} r.
Arguments Suspended {C} rest.

#[warnings="-register-all"]
Inductive coro : Type :=
| Coro (resume : MainWindow -> pause coro * MainWindow).

Definition resume (c : coro) : MainWindow -> pause coro * MainWindow :=
  let (f) := c in f.

(** A coroutine function none of whose [await]s reaches a future: each
    [await] of the program is on a method of [SCPIClient], and these only
    make blocking socket calls.  Such a coroutine runs to its end when it is
    resumed. *)
Definition plain (m : M MainWindow unit) : coro :=
  Coro (fun w => let (r, w') := m w in (Finished r, w')).

(** A task of the loop: its name, the coroutine function it was made from
    and what is left of the coroutine. *)
Record task : Type := Task {
  tid : nat;
  job_of : job;
  code : coro
}.

(** What the loop does to a task, in the order in which it does it. *)
Inductive marker : Type :=
| resumed (tid : nat) (j : job)
| suspended (tid : nat)
| finished (tid : nat).

Record loop : Type := Loop {
  window : MainWindow;
  ready : list task;        (* the tasks to resume, the next one first *)
  spawned : nat;            (* the number of tasks made so far *)
  trace : list marker
}.

(** What the loop dispatches: a click on one of the two buttons of the
    logging screen, the [timeout] signal of a timer, or the next ready task.
    The click on the start button carries the text of the interval field,
    which the coroutine reads when it runs: the field is not edited between
    the click and the next turn of the loop. *)
Inductive occurrence : Type :=
| click_start (text : string)
| click_stop
| timeout (t : nat)
| iteration.

Section EventLoop.

Variable net : network.
Variable int_of_text : string -> option Z.

Definition coroutine (j : job) : coro :=
  match j with
  | start_job text => plain (async_start_logging int_of_text text)
  | log_job => plain (log_data net)
  end.

Definition boot (w : MainWindow) : loop :=
  {| window := w; ready := []; spawned := 0; trace := [] |}.

(** [asyncio.ensure_future(coroutine)]: a new task, resumed after the tasks
    that are ready already. *)
Definition ensure_future (j : job) (l : loop) : loop :=
  {| window := window l;
     ready := ready l ++ [ {| tid := spawned l; job_of := j; code := coroutine j |} ];
     spawned := S (spawned l);
     trace := trace l |}.

(** One step of a task.  A task that suspends waits for what it awaits; the
    loop has it ready again behind the others. *)
Definition step (t : task) (rest : list task) (l : loop) : loop :=
  match resume (code t) (window l) with
  | (Finished _, w) =>
      {| window := w; ready := rest; spawned := spawned l;
         trace := trace l ++ [resumed (tid t) (job_of t); finished (tid t)] |}
  | (Suspended k, w) =>
      {| window := w;
         ready := rest ++ [ {| tid := tid t; job_of := job_of t; code := k |} ];
         spawned := spawned l;
         trace := trace l ++ [resumed (tid t) (job_of t); suspended (tid t)] |}
  end.

Definition handle (o : occurrence) (l : loop) : loop :=
  match o with
  | click_start text =>          (* [start_logging] *)
      ensure_future (start_job text) l
  | click_stop =>                (* [stop_logging] is an ordinary method *)
      {| window := snd (stop_logging (window l));
         ready := ready l; spawned := spawned l; trace := trace l |}
  | timeout t =>                 (* the lambda connected to [timeout] *)
      if nth t (timers (window l)) false then ensure_future log_job l else l
  | iteration =>
      match ready l with
      | [] => l
      | t :: rest => step t rest l
      end
  end.

Definition exec (os : list occurrence) (l : loop) : loop :=
  fold_left (fun l o => handle o l) os l.

End EventLoop.

(** * The initialization screen *)

(** The window together with the two widgets of the initialization screen. *)
Record Screen : Type := {
  main : MainWindow;
  progress_bar : Z;                   (* the value of [self.progress_bar] *)
  device_status_list : list string    (* the items of [self.device_status_list] *)
}.

Definition set_main (v : MainWindow) (s : Screen) : Screen :=
  {| main := v; progress_bar := progress_bar s;
     device_status_list := device_status_list s |}.

Definition set_progress_bar (v : Z) (s : Screen) : Screen :=
  {| main := main s; progress_bar := v; device_status_list := device_status_list s |}.

Definition set_device_status_list (v : list string) (s : Screen) : Screen :=
  {| main := main s; progress_bar := progress_bar s; device_status_list := v |}.

Definition on_main {A : Type} (m : M MainWindow A) : M Screen A :=
  zoom main set_main m.

(** [start_initialize] up to the creation of the worker: it returns the
    list given to [AsyncWorker], or [None] when it refuses.  A list that is
    [None] or empty is falsy.  The connection of the signals is [slot]
    below, the scheduling of [self.worker.run()] is [initialize]. *)
Definition start_initialize : M Screen (option (list device_info)) :=
  s <- get ;;
  match mw_devices (main s) with
  | None | Some [] =>
      on_main (show (critical "Hata" "Lütfen önce XML dosyasını yükleyin.")) ;;
      ret None
  | Some devices =>
      modify (set_progress_bar 0) ;;
      modify (set_device_status_list []) ;;
      ret (Some devices)
  end.






Section Initialize.

Variable net : network.
Variable str_float : float -> string.


End Initialize.

(** * The grid of the logging screen *)

(** A call [self.grid_layout.addWidget(frame, row, col)], the frame being
    named by the text of its first label. *)
Record placed : Type := Placed {
  p_label : string;
  p_row : Z;
  p_col : Z
}.

(** The frames added so far and the variables [row] and [col]. *)
Record grid : Type := Grid {
  g_cells : list placed;
  g_row : Z;
  g_col : Z
}.

(** The body of each of the three inner loops of [setup_logging_display]. *)
Definition add_frame (text : string) : M grid unit :=
  modify (fun g =>
    let col := g_col g + 1 in
    {| g_cells := g_cells g ++ [ {| p_label := text; p_row := g_row g; p_col := g_col g |} ];
       g_row := if col =? 8 then g_row g + 1 else g_row g;
       g_col := if col =? 8 then 0 else col |}).

(** A text field in an f-string. *)
Definition str_text (x : option string) : string :=
  match x with
  | Some s => s
  | None => "None"
  end.

(** [setup_logging_display]: the frames of the new grid, in the order in
    which they are added. *)
Definition setup_logging_display (devices : list device_info) : list placed :=
  g_cells (snd (for_each devices (fun device =>
    match device with
    | LoadInfo _ _ _ channels =>
        for_each channels (fun channel => add_frame (str_text (ci_name channel)))
    | SupplyInfo _ _ _ voltage_channels current_channels =>
        for_each voltage_channels (fun channel =>
          add_frame ("Voltage Channel " ++ str_int (s_number channel))) ;;
        for_each current_channels (fun channel =>
          add_frame ("Current Channel " ++ str_int (s_number channel)))
    end) {| g_cells := []; g_row := 0; g_col := 0 |})).

(** * The laboratory of the examples *)

(** ** Instruments and devices *)

(** [repr] of a float with an integral value below [1e16], the form in
    which the examples write setpoints. *)
Definition repr_integral (f : float) : string :=
  match Prim2SF f with
  | S754_zero s => if s then "-0.0" else "0.0"
  | S754_infinity s => if s then "-inf" else "inf"
  | S754_nan => "nan"
  | S754_finite s m e =>
      let n := if 0 <=? e then Z.pos m * 2 ^ e else Z.pos m / 2 ^ (- e) in
      (if s then "-" else EmptyString) ++ str_int n ++ ".0"
  end.

(** An instrument that accepts the connection and answers every command
    with the same line. *)
Definition steady (line : string) : peer :=
  {| refuses := None;
     send_fault := fun _ => None;
     recv_result := fun _ => Bytes line |}.

(** An address nobody listens on. *)
Definition unreachable : peer :=
  {| refuses := Some "[Errno 111] Connection refused";
     send_fault := fun _ => None;
     recv_result := fun _ => Bytes EmptyString |}.

(** An instrument that answers the identification query and then stops
    reading. *)
Definition idn_only (line : string) : peer :=
  {| refuses := None;
     send_fault := fun sent =>
       match sent with
       | [_] => None
       | _ => Some "[Errno 32] Broken pipe"
       end;
     recv_result := fun _ => Bytes line |}.

(** An instrument that accepts the connection and sends back blank lines. *)
Definition mute : peer := steady (String "010" EmptyString).

(** An instrument that takes the command and never answers. *)
Definition deaf : peer :=
  {| refuses := None;
     send_fault := fun _ => None;
     recv_result := fun _ => RecvFault "timed out" |}.

(** An instrument that answers its first [n] commands and no later one. *)
Definition fading (n : nat) (line : string) : peer :=
  {| refuses := None;
     send_fault := fun _ => None;
     recv_result := fun sent =>
       if (List.length sent <=? n)%nat then Bytes line else RecvFault "timed out" |}.

Definition lab (ip : string) (port : Z) : peer :=
  if (ip =? "10.0.0.1")%string then steady "ACME,LOAD,1,1.0"
  else if (ip =? "10.0.0.3")%string then steady "ACME,PSU,3,1.0"
  else if (ip =? "10.0.0.4")%string then mute
  else if (ip =? "10.0.0.5")%string then idn_only "ACME,LOAD,5,1.0"
  else if (ip =? "10.0.0.6")%string then deaf
  else if (ip =? "10.0.0.8")%string then fading 12 "0.5"
  else if (ip =? "10.0.0.9")%string then steady "0.25"
  else unreachable.

Definition load_AB : list channel :=
  [ {| number := 1; name := "A"; type := "VOLT"; value := 5.0%float |};
    {| number := 2; name := "B"; type := "CURR"; value := 1.0%float |} ].

Definition dev1 : device :=
  {| d_id := "L1"; d_ip := "10.0.0.1"; d_port := 5025; d_kind := Load load_AB |}.
Definition dev2 : device :=
  {| d_id := "L2"; d_ip := "10.0.0.2"; d_port := 5025; d_kind := Load load_AB |}.
Definition dev3 : device :=
  {| d_id := "P3"; d_ip := "10.0.0.3"; d_port := 5025;
     d_kind := Supply [ {| s_number := 1; s_value := 12.0%float |} ]
                      [ {| s_number := 1; s_value := 2.0%float |} ] |}.
Definition dev4 : device :=
  {| d_id := "L4"; d_ip := "10.0.0.4"; d_port := 5025; d_kind := Load load_AB |}.
Definition dev5 : device :=
  {| d_id := "L5"; d_ip := "10.0.0.5"; d_port := 5025; d_kind := Load load_AB |}.
Definition dev8 : device :=
  {| d_id := "L8"; d_ip := "10.0.0.8"; d_port := 5025; d_kind := Load load_AB |}.
Definition dev9 : device :=
  {| d_id := "L9"; d_ip := "10.0.0.9"; d_port := 5025; d_kind := Load load_AB |}.


(** ** Built-ins and documents *)

Definition digit_of (c : ascii) : option Z :=
  let n := nat_of_ascii c in
  if ((48 <=? n) && (n <=? 57))%nat then Some (Z.of_nat (n - 48)) else None.

(** The value of a non-empty run of decimal digits, and their number. *)
Fixpoint digits (acc : Z) (count : nat) (s : string) : option (Z * nat) :=
  match s with
  | EmptyString => Some (acc, count)
  | String c s' =>
      match digit_of c with
      | Some d => digits (10 * acc + d) (S count) s'
      | None => None
      end
  end.

Definition signed (s : string) : bool * string :=
  match s with
  | String "-" s' => (true, s')
  | _ => (false, s)
  end.

(** [int] on a decimal literal, the form in which the examples write
    numbers. *)
Definition int_dec (s : string) : option Z :=
  let (neg, body) := signed s in
  match digits 0 0 body with
  | Some (n, S _) => Some (if neg then - n else n)
  | _ => None
  end.

Fixpoint split_at_dot (s : string) : string * option string :=
  match s with
  | EmptyString => (EmptyString, None)
  | String "." s' => (EmptyString, Some s')
  | String c s' => let (a, b) := split_at_dot s' in (String c a, b)
  end.

(** [float] on a literal [digits] or [digits.digits] with fewer than 16
    digits: the quotient of two integers that binary64 holds exactly. *)
Definition float_dec (s : string) : option float :=
  let (neg, body) := signed s in
  let (whole, frac) := split_at_dot body in
  match digits 0 0 (whole ++ match frac with Some f => f | None => EmptyString end) with
  | Some (m, S k) =>
      let scale := match frac with Some f => String.length f | None => 0%nat end in
      if (whole =? EmptyString)%string || (15 <? S k)%nat then None
      else
        let q := (of_uint63 (Uint63.of_Z m) / of_uint63 (Uint63.of_Z (10 ^ Z.of_nat scale)))%float in
        Some (if neg then (- q)%float else q)
  | _ => None
  end.

Definition leaf (tag text : string) : element := Element tag (Some text) [].

Definition xml_channel (number name type value : string) : element :=
  Element "Channel" None
    [leaf "Number" number; leaf "Name" name; leaf "Type" type; leaf "Value" value].

Definition xml_setting (number value : string) : element :=
  Element "Channel" None [leaf "Number" number; leaf "Value" value].

(** A document with one load and one supply. *)
Definition good_root : element :=
  Element "Devices" None
    [ Element "ElectronicLoads" None
        [ Element "ElectronicLoad" None
            [ leaf "ID" "L1"; leaf "IP" "10.0.0.1"; leaf "Port" "5025";
              Element "Channels" None
                [ xml_channel "1" "A" "VOLT" "5.0"; xml_channel "2" "B" "CURR" "1.0" ] ] ];
      Element "PowerSupplys" None
        [ Element "PowerSupply" None
            [ leaf "ID" "P3"; leaf "IP" "10.0.0.3"; leaf "Port" "5025";
              Element "VoltageValues" None [ xml_setting "1" "12.0" ];
              Element "CurrentValues" None [ xml_setting "1" "2.0" ] ] ] ].

(** The same load without its [IP] element. *)
Definition incomplete_root : element :=
  Element "Devices" None
    [ Element "ElectronicLoads" None
        [ Element "ElectronicLoad" None
            [ leaf "ID" "L1"; leaf "Port" "5025";
              Element "Channels" None [ xml_channel "1" "A" "VOLT" "5.0" ] ] ] ].

Definition disk (file_path : string) : file :=
  if (file_path =? "devices.xml")%string then Document good_root
  else if (file_path =? "incomplete.xml")%string then Document incomplete_root
  else if (file_path =? "notes.txt")%string then Unparsable
  else Absent.

(** ** Windows *)

(** The window after [initialization_done] of a run on the load [dev1]. *)
Definition lab_window : MainWindow :=
  set_scpi_clients
    (scpi_clients (snd (run lab repr_integral (new_AsyncWorker [dev1]))))
    new_MainWindow.

(** The window after [initialization_done] of a run on three loads, the
    second of which stops answering in the middle of its first poll. *)
Definition bench_window : MainWindow :=
  set_scpi_clients
    (scpi_clients (snd (run lab repr_integral (new_AsyncWorker [dev1; dev8; dev9]))))
    new_MainWindow.

(** The window after a first logging session on [lab_window]: one cycle has
    run, the log holds the header and two rows. *)
Definition logged_window : MainWindow :=
  window (exec lab int_dec [click_start "1"; iteration; timeout 0; iteration; click_stop]
            (boot lab_window)).

(** The loop after a start and one cycle on [lab_window]: no task waits. *)
Definition idle_loop : loop :=
  exec lab int_dec [click_start "1"; iteration; timeout 0; iteration] (boot lab_window).

(** ** More devices *)



(** ** Screens *)

(** The screen after [devices.xml] has been loaded, with what an earlier
    initialization left on it. *)
Definition loaded_screen : Screen :=
  {| main := snd (load_xml disk int_dec float_dec "devices.xml" new_MainWindow);
     progress_bar := 50;
     device_status_list := ["Cihaz L1 bağlanamadı."] |}.

(** A document without devices. *)
Definition empty_root : element := Element "Devices" None [].

(** * Properties *)

Ltac unfold_m :=
  unfold bind, ret, get, modify, raise, try_except, zoom in *.

(** ** The laboratory at work *)

Example strip_line :
  strip (String "009" " 0.5 A " ++ String "013" (String "010" EmptyString)) = "0.5 A".
Proof. reflexivity. Qed.

Example str_int_values : map str_int [0; 7; -12; 5025] = ["0"; "7"; "-12"; "5025"].
Proof. reflexivity. Qed.

Example repr_integral_values :
  map repr_integral [5.0%float; 1.0%float; 12.0%float; (-3.0)%float] =
    ["5.0"; "1.0"; "12.0"; "-3.0"].
Proof. reflexivity. Qed.

Example int_dec_values :
  map int_dec ["5025"; "-12"; "-"; EmptyString; "1.5"] = [Some 5025; Some (-12); None; None; None].
Proof. reflexivity. Qed.

Example float_dec_values :
  map float_dec ["5.0"; "12"; "1.5"; "abc"] =
    [Some 5.0%float; Some 12.0%float; Some 1.5%float; None].
Proof. reflexivity. Qed.

(** The devices of [devices.xml] are the load [dev1] and the supply [dev3]. *)
Example devices_xml_loaded :
  option_map (map as_device) (match read_devices_from_xml disk int_dec float_dec "devices.xml" with
                              | Ok ds => Some ds
                              | Raise _ => None
                              end) =
    Some [Some dev1; Some dev3].
Proof. reflexivity. Qed.

(** A run over five devices: a load and a supply that answer, an address
    that refuses, a load that sends blank lines and a load that stops
    reading after the identification. *)
Example run_in_the_lab :
  let (r, w) := run lab repr_integral (new_AsyncWorker [dev1; dev2; dev3; dev4; dev5]) in
  r = Ok tt
  /\ emitted w =
       [ result "Cihaz L1 bağlı: ACME,LOAD,1,1.0"; progress 20;
         error "Connection error to 10.0.0.2: [Errno 111] Connection refused"; progress 40;
         result "Cihaz P3 bağlı: ACME,PSU,3,1.0"; progress 60;
         result "Cihaz L4 bağlanamadı."; progress 80;
         result "Cihaz L5 bağlı: ACME,LOAD,5,1.0";
         error "Error sending command to 10.0.0.5: [Errno 32] Broken pipe"; progress 100;
         done ]
  /\ map sent_on (scpi_clients w) =
       [ ["*IDN?"; "CHAN 1"; "FUNC VOLT"; "VOLT 5.0"; "CHAN 2"; "FUNC CURR"; "CURR 1.0"];
         ["*IDN?"; "VOLT 1,12.0"; "CURR 1,2.0"] ].
Proof. vm_compute. repeat split; reflexivity. Qed.

(** One cycle of [log_data] after a start: the header, then one row per
    channel of the load. *)
Example first_cycle :
  csv_file (window (exec lab int_dec [click_start "1"; iteration; timeout 0; iteration]
                      (boot lab_window))) =
    [ ["Time"; "IP"; "Channel"; "Current"; "Voltage"; "Resistance"];
      ["10.0.0.1"; "1"; "ACME,LOAD,1,1.0"; "ACME,LOAD,1,1.0"; "ACME,LOAD,1,1.0"];
      ["10.0.0.1"; "2"; "ACME,LOAD,1,1.0"; "ACME,LOAD,1,1.0"; "ACME,LOAD,1,1.0"] ].
Proof. reflexivity. Qed.

(** ** The link *)

Section LinkFacts.

Variable net : network.

Lemma connect_accepted (c : SCPIClient) :
  refuses (net (ip c) (port c)) = None ->
  connect net c = (Ok tt, set_sock (Some (Connected (net (ip c) (port c)) [])) c).
Proof.
  intros H. unfold connect, sock_connect. unfold_m. simpl. rewrite H. reflexivity.
Qed.

Lemma connect_refused (c : SCPIClient) (e : string) :
  refuses (net (ip c) (port c)) = Some e ->
  connect net c =
    (Raise (ConnectionError ("Connection error to " ++ ip c ++ ": " ++ e)),
     set_sock (Some Unconnected) c).
Proof.
  intros H. unfold connect, sock_connect. unfold_m. simpl. rewrite H. reflexivity.
Qed.

(** What [send_command] does on a connected link, by the three things the
    instrument may do. *)
Lemma send_command_connected (c : SCPIClient) (p : peer) (sent : list string)
    (command : string) :
  sock c = Some (Connected p sent) ->
  send_command net command c =
    match send_fault p (sent ++ [command]) with
    | Some e =>
        (Raise (ConnectionError ("Error sending command to " ++ ip c ++ ": " ++ e)), c)
    | None =>
        let c' := set_sock (Some (Connected p (sent ++ [command]))) c in
        match recv_result p (sent ++ [command]) with
        | Bytes raw => (Ok (strip raw), c')
        | RecvFault e =>
            (Raise (ConnectionError
                      ("Error sending command to " ++ ip c ++ ": " ++
                       ("Error reading response from " ++ ip c ++ ": " ++ e))), c')
        end
    end.
Proof.
  intros H. unfold send_command, read_response, sock_sendall, sock_recv. unfold_m.
  cbv beta. rewrite !H. cbv iota beta.
  destruct (send_fault p (sent ++ [command])) as [e|]; simpl; [reflexivity|].
  destruct (recv_result p (sent ++ [command])); reflexivity.
Qed.

(** Only [ConnectionError] leaves [connect] and [send_command]. *)
Lemma connect_raises (c c' : SCPIClient) (e : exn) :
  connect net c = (Raise e, c') -> exists m, e = ConnectionError m.
Proof.
  destruct (refuses (net (ip c) (port c))) as [r|] eqn:Hr.
  - rewrite (connect_refused _ _ Hr). intros H; inversion H; eauto.
  - rewrite (connect_accepted _ Hr). discriminate.
Qed.

Lemma send_command_unconnected (c : SCPIClient) (command : string) :
  sock c = Some Unconnected ->
  send_command net command c =
    (Raise (ConnectionError
              ("Error sending command to " ++ ip c ++ ": " ++ "[Errno 32] Broken pipe")),
     c).
Proof.
  intros H. unfold send_command, read_response, sock_sendall, sock_recv. unfold_m.
  cbv beta. rewrite !H. reflexivity.
Qed.

Lemma send_command_closed (c : SCPIClient) (command : string) :
  sock c = None ->
  send_command net command c =
    match connect net c with
    | (Ok _, c1) => send_command net command c1
    | (Raise e, c1) => (Raise e, c1)
    end.
Proof.
  intros H.
  destruct (refuses (net (ip c) (port c))) as [r|] eqn:Hr.
  - unfold send_command. unfold bind at 1. unfold bind at 1. unfold get at 1.
    rewrite H, (connect_refused _ _ Hr). reflexivity.
  - unfold send_command. unfold bind at 1. unfold bind at 1. unfold get at 1.
    rewrite H, (connect_accepted _ Hr).
    unfold bind at 3. unfold bind at 3. unfold get at 2. simpl sock. unfold ret at 1.
    reflexivity.
Qed.

Lemma send_command_raises (c c' : SCPIClient) (command : string) (e : exn) :
  send_command net command c = (Raise e, c') -> exists m, e = ConnectionError m.
Proof.
  assert (Hconn : forall c0 p sent, sock c0 = Some (Connected p sent) ->
            send_command net command c0 = (Raise e, c') ->
            exists m, e = ConnectionError m).
  { intros c0 p sent Hs. rewrite (send_command_connected _ _ _ _ Hs).
    destruct (send_fault p (sent ++ [command])); simpl.
    - intros H; inversion H; eauto.
    - destruct (recv_result p (sent ++ [command])); intros H; inversion H; eauto. }
  destruct (sock c) as [[|p sent]|] eqn:Hs.
  - rewrite (send_command_unconnected _ _ Hs). intros H; inversion H; eauto.
  - eauto.
  - rewrite (send_command_closed _ _ Hs).
    destruct (refuses (net (ip c) (port c))) as [r|] eqn:Hr.
    + rewrite (connect_refused _ _ Hr). intros H; inversion H; eauto.
    + rewrite (connect_accepted _ Hr). apply Hconn with (p := net (ip c) (port c)) (sent := []).
      reflexivity.
Qed.

(** [send_command] leaves the address and the channels of the client alone. *)
Lemma send_command_keeps (c : SCPIClient) (command : string) :
  let c' := snd (send_command net command c) in
  ip c' = ip c /\ port c' = port c /\ channels c' = channels c.
Proof.
  assert (Hconn : forall c0 p sent, sock c0 = Some (Connected p sent) ->
            let c' := snd (send_command net command c0) in
            ip c' = ip c0 /\ port c' = port c0 /\ channels c' = channels c0).
  { intros c0 p sent Hs. cbv zeta. rewrite (send_command_connected c0 p sent command Hs).
    destruct (send_fault p (sent ++ [command])); [auto|].
    destruct (recv_result p (sent ++ [command])); auto. }
  destruct (sock c) as [[|p sent]|] eqn:Hs.
  - cbv zeta. rewrite (send_command_unconnected c command Hs). auto.
  - eauto.
  - cbv zeta. rewrite (send_command_closed c command Hs).
    destruct (refuses (net (ip c) (port c))) as [r|] eqn:Hr.
    + rewrite (connect_refused c r Hr). auto.
    + rewrite (connect_accepted c Hr).
      apply (Hconn (set_sock (Some (Connected (net (ip c) (port c)) [])) c)
               (net (ip c) (port c)) []).
      reflexivity.
Qed.

End LinkFacts.

(** ** The worker *)

Section WorkerFacts.

Variable net : network.
Variable str_float : float -> string.

(** The commands of [attempt] that follow the identification query, as one
    computation on the client. *)
Definition configure (device : device) : M SCPIClient unit :=
  match d_kind device with
  | Load _ =>
      fun c => for_each (channels c) (initialize_channel net str_float) c
  | Supply voltage_channels current_channels =>
      for_each voltage_channels (initialize_voltage_channel net str_float) ;;
      for_each current_channels (initialize_current_channel net str_float)
  end.

Definition online_message (device : device) (response : string) : string :=
  "Cihaz " ++ d_id device ++ " bağlı: " ++ response.

Definition offline_message (device : device) : string :=
  "Cihaz " ++ d_id device ++ " bağlanamadı.".

(** What one device contributes to a run: the signals emitted for it,
    the progress value left out, and the client retained for it, if any. *)
Definition visit (device : device) : list signal * list SCPIClient :=
  match connect net (make_client device) with
  | (Raise e, _) => ([error (str_exn e)], [])
  | (Ok _, c1) =>
      match send_command net "*IDN?" c1 with
      | (Raise e, _) => ([error (str_exn e)], [])
      | (Ok response, c2) =>
          if truthy response then
            match configure device c2 with
            | (Raise e, _) =>
                ([result (online_message device response); error (str_exn e)], [])
            | (Ok _, c3) => ([result (online_message device response)], [c3])
            end
          else ([result (offline_message device)], [])
      end
  end.

Lemma for_each_on_client (X : Type) (f : X -> M SCPIClient unit) (xs : list X)
    (w : AsyncWorker) (c : SCPIClient) :
  for_each xs (fun x => on_client (f x)) (w, c) =
    let (r, c') := for_each xs f c in (r, (w, c')).
Proof.
  revert c. induction xs as [|x xs IH]; intros c; simpl.
  - reflexivity.
  - unfold bind. unfold on_client at 1. unfold zoom. simpl.
    destruct (f x c) as [[[]|e] c1]; simpl.
    + apply IH.
    + reflexivity.
Qed.

Lemma attempt_run (d : device) (w : AsyncWorker) (c : SCPIClient) :
  attempt net str_float d (w, c) =
    match connect net c with
    | (Raise e, c1) => (Raise e, (w, c1))
    | (Ok _, c1) =>
        match send_command net "*IDN?" c1 with
        | (Raise e, c2) => (Raise e, (w, c2))
        | (Ok response, c2) =>
            if truthy response then
              let w1 := emit_on (result (online_message d response)) w in
              match configure d c2 with
              | (Raise e, c3) => (Raise e, (w1, c3))
              | (Ok _, c3) => (Ok tt, (append_client c3 w1, c3))
              end
            else (Ok tt, (emit_on (result (offline_message d)) w, c2))
        end
    end.
Proof.
  unfold attempt. unfold bind at 1. unfold on_client at 1. unfold zoom at 1. simpl snd.
  destruct (connect net c) as [[[]|e] c1]; [|reflexivity].
  unfold bind at 1. unfold on_client at 1. unfold zoom at 1. simpl snd.
  destruct (send_command net "*IDN?" c1) as [[response|e] c2]; [|reflexivity].
  simpl fst. destruct (truthy response); [|reflexivity].
  unfold bind at 1. unfold on_self at 1, emit, modify, zoom. simpl fst. simpl snd.
  fold (online_message d response).
  unfold bind at 1. unfold configure.
  destruct (d_kind d) as [cs|vs cs].
  - unfold bind at 1. unfold get. rewrite for_each_on_client. simpl snd.
    destruct (for_each (channels c2) (initialize_channel net str_float) c2)
      as [[[]|e] c3]; reflexivity.
  - unfold bind at 1. rewrite for_each_on_client.
    unfold bind at 2.
    destruct (for_each vs (initialize_voltage_channel net str_float) c2)
      as [[[]|e] c3]; [|reflexivity].
    rewrite for_each_on_client.
    destruct (for_each cs (initialize_current_channel net str_float) c3)
      as [[[]|e] c4]; reflexivity.
Qed.

(** *** Only [ConnectionError] leaves the configuration commands *)

Definition is_ConnectionError (e : exn) : Prop := exists m, e = ConnectionError m.

Lemma bind_raises (S A B : Type) (m : M S A) (k : A -> M S B) (s s' : S) (e : exn) :
  bind m k s = (Raise e, s') ->
  m s = (Raise e, s') \/ exists a s1, m s = (Ok a, s1) /\ k a s1 = (Raise e, s').
Proof.
  unfold bind. destruct (m s) as [[a|e0] s1]; intros H.
  - right. eauto.
  - left. inversion H. reflexivity.
Qed.

Lemma for_each_raises (S X : Type) (f : X -> M S unit) (P : exn -> Prop) :
  (forall x s s' e, f x s = (Raise e, s') -> P e) ->
  forall xs s s' e, for_each xs f s = (Raise e, s') -> P e.
Proof.
  intros Hf. induction xs as [|x xs IH]; intros s s' e H; simpl in H.
  - discriminate.
  - apply bind_raises in H. destruct H as [H | (a & s1 & _ & H)]; eauto.
Qed.

Ltac raises :=
  repeat match goal with
  | H : bind _ _ _ = (Raise _, _) |- _ =>
      apply bind_raises in H; destruct H as [H | (? & ? & _ & H)]
  | H : send_command _ _ _ = (Raise _, _) |- _ =>
      exact (send_command_raises _ _ _ _ _ H)
  | H : ret _ _ = (Raise _, _) |- _ => discriminate H
  end.

Lemma initialize_channel_raises (ch : channel) (c c' : SCPIClient) (e : exn) :
  initialize_channel net str_float ch c = (Raise e, c') -> is_ConnectionError e.
Proof.
  unfold initialize_channel, is_ConnectionError. intros H.
  apply bind_raises in H. destruct H as [H | (? & ? & _ & H)]; [raises|].
  apply bind_raises in H. destruct H as [H | (? & ? & _ & H)]; [raises|].
  destruct (type ch =? "RES")%string; [raises|].
  destruct (type ch =? "CURR")%string; [raises|].
  destruct (type ch =? "VOLT")%string; raises.
Qed.

Lemma configure_raises (d : device) (c c' : SCPIClient) (e : exn) :
  configure d c = (Raise e, c') -> is_ConnectionError e.
Proof.
  unfold configure. destruct (d_kind d) as [cs|vs cs]; intros H.
  - revert H. apply for_each_raises. intros x s s'. apply initialize_channel_raises.
  - apply bind_raises in H. destruct H as [H | (? & ? & _ & H)]; revert H;
      apply for_each_raises; intros ch s s' e0 H;
      unfold initialize_voltage_channel, initialize_current_channel in H;
      unfold is_ConnectionError; raises.
Qed.

(** *** One turn and the whole run *)

Definition extend (w : AsyncWorker) (sigs : list signal) (cs : list SCPIClient)
  : AsyncWorker :=
  {| devices := devices w;
     scpi_clients := scpi_clients w ++ cs;
     emitted := emitted w ++ sigs |}.

Definition progress_of (total_devices idx : Z) : Z := (idx + 1) * 100 / total_devices.

Lemma turn_run (total idx : Z) (d : device) (w : AsyncWorker) :
  turn net str_float total idx d w =
    (Ok tt, extend w (fst (visit d) ++ [progress (progress_of total idx)])
                     (snd (visit d))).
Proof.
  unfold turn, with_client. unfold bind at 1. unfold try_except.
  rewrite attempt_run. unfold visit.
  destruct (connect net (make_client d)) as [[[]|e] c1] eqn:Hc.
  2:{ destruct (connect_raises _ _ _ _ Hc) as [m ->]. destruct w.
      unfold extend, on_self, emit, modify, zoom, emit_on, progress_of; simpl.
      rewrite app_nil_r, <- app_assoc. reflexivity. }
  destruct (send_command net "*IDN?" c1) as [[response|e] c2] eqn:Hi.
  2:{ destruct (send_command_raises _ _ _ _ _ Hi) as [m ->]. destruct w.
      unfold extend, on_self, emit, modify, zoom, emit_on, progress_of; simpl.
      rewrite app_nil_r, <- app_assoc. reflexivity. }
  destruct (truthy response).
  2:{ destruct w.
      unfold extend, on_self, emit, modify, zoom, emit_on, progress_of; simpl.
      rewrite app_nil_r, <- app_assoc. reflexivity. }
  cbv zeta.
  destruct (configure d c2) as [[[]|e] c3] eqn:Hk.
  - destruct w.
    unfold extend, on_self, emit, modify, zoom, emit_on, append_client, progress_of; simpl.
    rewrite <- app_assoc. reflexivity.
  - destruct (configure_raises _ _ _ _ Hk) as [m ->]. destruct w.
    unfold extend, on_self, emit, modify, zoom, emit_on, progress_of; simpl.
    rewrite app_nil_r, <- !app_assoc. reflexivity.
Qed.

Definition signals_of (total : Z) (turns : list (Z * device)) : list signal :=
  flat_map (fun '(idx, d) => (fst (visit d) ++ [progress (progress_of total idx)])%list)
    turns.

Definition clients_of (ds : list device) : list SCPIClient :=
  flat_map (fun d => snd (visit d)) ds.

Lemma turns_run (total : Z) (ds : list device) (i : Z) (w : AsyncWorker) :
  for_each (enumerate_from i ds) (fun '(idx, device) => turn net str_float total idx device) w =
    (Ok tt, extend w (signals_of total (enumerate_from i ds)) (clients_of ds)).
Proof.
  revert i w. induction ds as [|d ds IH]; intros i w; simpl.
  - destruct w; unfold extend; simpl. rewrite !app_nil_r. reflexivity.
  - unfold bind. rewrite turn_run, IH.
    destruct w; unfold extend, signals_of, clients_of; simpl.
    rewrite <- !app_assoc. reflexivity.
Qed.

(** The run of a fresh worker never raises; it emits, device after device,
    the signals of the device and its progress value, then [done]. *)
Lemma run_spec (ds : list device) :
  run net str_float (new_AsyncWorker ds) =
    (Ok tt,
     {| devices := ds;
        scpi_clients := clients_of ds;
        emitted := signals_of (Z.of_nat (List.length ds)) (enumerate ds) ++ [done] |}).
Proof.
  unfold run. unfold bind at 1. unfold get. simpl devices.
  unfold bind. unfold enumerate. rewrite turns_run. reflexivity.
Qed.

End WorkerFacts.

(** ** Progress of the initialization *)




Section ProgressFacts.

Variable net : network.
Variable str_float : float -> string.




End ProgressFacts.

(** ** The command sequence of a load *)




(** After [sent], the peer takes each of [cmds] and answers it: no
    transport error on any of them. *)
Fixpoint answered (p : peer) (sent cmds : list string) : Prop :=
  match cmds with
  | [] => True
  | cmd :: rest =>
      send_fault p (sent ++ [cmd]) = None
      /\ (exists raw, recv_result p (sent ++ [cmd]) = Bytes raw)
      /\ answered p (sent ++ [cmd]) rest
  end.

(** The device accepts the connection and answers the identification query
    with a non-empty response. *)
Definition identifies (net : network) (d : device) : Prop :=
  let p := net (d_ip d) (d_port d) in
  refuses p = None
  /\ send_fault p ["*IDN?"] = None
  /\ exists raw, recv_result p ["*IDN?"] = Bytes raw /\ truthy (strip raw) = true.

(** The commands that reached the instrument when the [try] block of [run]
    has been executed for the device. *)
Definition commands_sent (net : network) (str_float : float -> string) (d : device)
    (w : AsyncWorker) : list string :=
  sent_on (snd (snd (attempt net str_float d (w, make_client d)))).

Lemma answered_app (p : peer) (a b sent : list string) :
  answered p sent (a ++ b) <-> answered p sent a /\ answered p (sent ++ a) b.
Proof.
  revert sent. induction a as [|x a IH]; intros sent; simpl.
  - rewrite app_nil_r. tauto.
  - rewrite IH, <- app_assoc. simpl. tauto.
Qed.

(** [a] is an initial part of [b]. *)
Definition initial_part (a b : list string) : Prop := exists rest, b = (a ++ rest)%list.

Lemma initial_part_app (a b c : list string) :
  initial_part a b -> initial_part a (b ++ c).
Proof. intros [rest ->]. exists (rest ++ c)%list. apply eq_sym, app_assoc. Qed.

Lemma initial_part_after (a b c : list string) :
  initial_part b c -> initial_part (a ++ b) (a ++ c).
Proof. intros [rest ->]. exists rest. apply app_assoc. Qed.

(** On a connected link the computation sends the commands [l], one after
    the other, and stops at the first one that meets a transport error. *)
Definition sends {A : Type} (m : M SCPIClient A) (l : list string) : Prop :=
  forall c p sent,
    sock c = Some (Connected p sent) ->
    exists done,
      initial_part done l
      /\ sock (snd (m c)) = Some (Connected p (sent ++ done))
      /\ (forall a, fst (m c) = Ok a -> done = l).

Lemma sends_ret (A : Type) (a : A) : sends (ret a) [].
Proof.
  intros c p sent Hs. exists []. split; [exists []; reflexivity|].
  split; [cbn; rewrite app_nil_r; exact Hs | reflexivity].
Qed.

Lemma sends_bind (A B : Type) (m : M SCPIClient A) (k : A -> M SCPIClient B)
    (l1 l2 : list string) :
  sends m l1 -> (forall a, sends (k a) l2) -> sends (bind m k) (l1 ++ l2).
Proof.
  intros Hm Hk c p sent Hs. destruct (Hm c p sent Hs) as (d1 & Hp1 & Hs1 & Hok1).
  unfold bind. destruct (m c) as [[a|e] c1]; cbn [fst snd] in *.
  - rewrite (Hok1 a eq_refl) in *.
    destruct (Hk a c1 p (sent ++ l1)%list Hs1) as (d2 & Hp2 & Hs2 & Hok2).
    exists (l1 ++ d2)%list. split; [apply initial_part_after; exact Hp2|].
    split; [rewrite app_assoc; exact Hs2|].
    intros b Hb. rewrite (Hok2 b Hb). reflexivity.
  - exists d1. split; [apply initial_part_app; exact Hp1|].
    split; [exact Hs1 | discriminate].
Qed.

Lemma sends_for_each (X : Type) (f : X -> M SCPIClient unit) (g : X -> list string)
    (xs : list X) :
  Forall (fun x => sends (f x) (g x)) xs -> sends (for_each xs f) (flat_map g xs).
Proof.
  induction 1 as [|x xs Hx Hxs IH]; cbn [for_each flat_map].
  - apply sends_ret.
  - apply sends_bind; [exact Hx | intros _; exact IH].
Qed.

Section LoadFacts.

Variable net : network.
Variable str_float : float -> string.

Lemma sends_send_command (command : string) : sends (send_command net command) [command].
Proof.
  intros c p sent Hs. rewrite (send_command_connected net c p sent command Hs).
  destruct (send_fault p (sent ++ [command])) as [e|].
  - exists []. split; [exists [command]; reflexivity|].
    split; [cbn; rewrite app_nil_r; exact Hs | discriminate].
  - exists [command]. split; [exists []; reflexivity|].
    destruct (recv_result p (sent ++ [command])); split; reflexivity.
Qed.








End LoadFacts.



(** ** A device that fails during initialization *)




Section FailureFacts.

Variable net : network.
Variable str_float : float -> string.



End FailureFacts.




(** ** The loader and its failures *)








Section LoaderFacts.

Variable fs : string -> file.
Variable int_of_text : string -> option Z.
Variable float_of_text : string -> option float.












(** *** A record without a required element is never accepted *)













End LoaderFacts.

Section LoadXmlFacts.

Variable fs : string -> file.
Variable int_of_text : string -> option Z.
Variable float_of_text : string -> option float.


End LoadXmlFacts.



(** ** What a poll cycle writes *)

(** The window [w] after the outputs recorded in [d] (rows of the log, lines
    of the standard output, readings of the display) have been added to it. *)
Definition absorb (w d : MainWindow) : MainWindow :=
  set_display (display w ++ display d)
    (set_stdout (stdout w ++ stdout d)
       (set_csv_file (csv_file w ++ csv_file d) w)).

Lemma absorb_blank (w : MainWindow) : absorb w new_MainWindow = w.
Proof. destruct w. unfold absorb. cbn. rewrite !app_nil_r. reflexivity. Qed.

Lemma absorb_absorb (w d1 d2 : MainWindow) :
  absorb (absorb w d1) d2 = absorb w (absorb d1 d2).
Proof. destruct w, d1, d2. unfold absorb. cbn. rewrite !app_assoc. reflexivity. Qed.

(** A computation on the window and a client that only adds outputs to the
    window: on any window it does what it does on the blank one. *)
Definition adds_outputs {A : Type} (m : M view A) : Prop :=
  forall w c,
    m (w, c) = let '(r, (d, c')) := m (new_MainWindow, c) in (r, (absorb w d, c')).

Section LoggerFacts.

Variable net : network.

Lemma adds_outputs_bind (A B : Type) (m : M view A) (k : A -> M view B) :
  adds_outputs m -> (forall a, adds_outputs (k a)) -> adds_outputs (bind m k).
Proof.
  intros Hm Hk w c. unfold bind. rewrite (Hm w c).
  destruct (m (new_MainWindow, c)) as [[a|e] [d c1]]; [|reflexivity].
  rewrite (Hk a (absorb w d) c1), (Hk a d c1).
  destruct (k a (new_MainWindow, c1)) as [r [d2 c2]].
  rewrite absorb_absorb. reflexivity.
Qed.

Lemma adds_outputs_on_link (A : Type) (m : M SCPIClient A) : adds_outputs (on_link m).
Proof.
  intros w c. unfold on_link, zoom. cbn [fst snd].
  destruct (m c) as [r c']. rewrite absorb_blank. reflexivity.
Qed.

Lemma adds_outputs_print (line : string) : adds_outputs (on_window (print line)).
Proof.
  intros w c. destruct w. unfold absorb. cbn. rewrite !app_nil_r. reflexivity.
Qed.

Lemma adds_outputs_writerow (row : list string) : adds_outputs (on_window (writerow row)).
Proof.
  intros w c. destruct w. unfold absorb. cbn. rewrite !app_nil_r. reflexivity.
Qed.

Lemma adds_outputs_display (a : string) (n : Z) (x y z : string) :
  adds_outputs (on_window (update_logging_display a n x y z)).
Proof.
  intros w c. destruct w. unfold absorb. cbn. rewrite !app_nil_r. reflexivity.
Qed.

(** [s <- get ;; k (snd s)]: the window is not looked at. *)
Lemma adds_outputs_client (A : Type) (k : SCPIClient -> M view A) :
  (forall c, adds_outputs (k c)) -> adds_outputs (s <- get ;; k (snd s)).
Proof. intros Hk w c. unfold bind, get. cbn [snd]. apply Hk. Qed.

Lemma adds_outputs_for_each (X : Type) (f : X -> M view unit) (xs : list X) :
  (forall x, adds_outputs (f x)) -> adds_outputs (for_each xs f).
Proof.
  intros Hf. induction xs as [|x xs IH]; simpl.
  - intros w c. unfold ret. rewrite absorb_blank. reflexivity.
  - apply adds_outputs_bind; auto.
Qed.

Lemma adds_outputs_try (A : Type) (m : M view A) (sel : exn -> option string)
    (h : string -> M view A) :
  adds_outputs m -> (forall e, adds_outputs (h e)) -> adds_outputs (try_except m sel h).
Proof.
  intros Hm Hh w c. unfold try_except. rewrite (Hm w c).
  destruct (m (new_MainWindow, c)) as [[a|e] [d c1]]; [reflexivity|].
  destruct (sel e) as [msg|]; [|reflexivity].
  rewrite (Hh msg (absorb w d) c1), (Hh msg d c1).
  destruct (h msg (new_MainWindow, c1)) as [r [d2 c2]].
  rewrite absorb_absorb. reflexivity.
Qed.

Lemma log_channel_adds (ch : channel) : adds_outputs (log_channel net ch).
Proof.
  unfold log_channel.
  apply adds_outputs_bind; [apply adds_outputs_on_link | intros _].
  apply adds_outputs_bind; [apply adds_outputs_on_link | intros current].
  apply adds_outputs_bind; [apply adds_outputs_on_link | intros voltage].
  apply adds_outputs_bind; [apply adds_outputs_on_link | intros resistance].
  apply (adds_outputs_client _
           (fun client =>
              on_window (print (ip client ++ " - Channel " ++ str_int (number ch)
                                ++ " - Current: " ++ current ++ ", Voltage: " ++ voltage
                                ++ ", Resistance: " ++ resistance)) ;;
              on_window (writerow [ip client; str_int (number ch);
                                   current; voltage; resistance]) ;;
              on_window (update_logging_display (ip client) (number ch)
                           current voltage resistance))).
  intros c.
  apply adds_outputs_bind; [apply adds_outputs_print | intros _].
  apply adds_outputs_bind; [apply adds_outputs_writerow | intros _].
  apply adds_outputs_display.
Qed.

Lemma log_client_adds : adds_outputs (log_client net).
Proof.
  unfold log_client. apply adds_outputs_try.
  - apply (adds_outputs_client _ (fun c => for_each (channels c) (log_channel net))).
    intros c. apply adds_outputs_for_each. apply log_channel_adds.
  - intros e.
    apply (adds_outputs_client _
             (fun c => on_window (print ("Error during logging from " ++ ip c ++ ": " ++ e)))).
    intros c. apply adds_outputs_print.
Qed.

(** *** The poll of one client, written out *)

(** The four commands of [log_channel] and the three values they return. *)
Definition measure (ch : channel) : M SCPIClient (string * string * string) :=
  send_command net ("CHAN " ++ str_int (number ch)) ;;
  current <- send_command net "MEASure:CURRent?" ;;
  voltage <- send_command net "MEASure:VOLTage?" ;;
  resistance <- send_command net "MEASure:RESistance?" ;;
  ret (current, voltage, resistance).

Lemma measure_keeps_ip (ch : channel) (c : SCPIClient) :
  ip (snd (measure ch c)) = ip c.
Proof.
  unfold measure, bind, ret.
  pose proof (send_command_keeps net c ("CHAN " ++ str_int (number ch))) as (H1 & _).
  destruct (send_command net ("CHAN " ++ str_int (number ch)) c) as [[r1|e1] c1];
    cbn [snd] in *; [|exact H1].
  pose proof (send_command_keeps net c1 "MEASure:CURRent?") as (H2 & _).
  destruct (send_command net "MEASure:CURRent?" c1) as [[r2|e2] c2];
    cbn [snd] in *; [|congruence].
  pose proof (send_command_keeps net c2 "MEASure:VOLTage?") as (H3 & _).
  destruct (send_command net "MEASure:VOLTage?" c2) as [[r3|e3] c3];
    cbn [snd] in *; [|congruence].
  pose proof (send_command_keeps net c3 "MEASure:RESistance?") as (H4 & _).
  destruct (send_command net "MEASure:RESistance?" c3) as [[r4|e4] c4];
    cbn [snd] in *; congruence.
Qed.

(** The row, the line and the reading that [log_channel] produces. *)
Definition row_of (r : reading) : list string :=
  [r_ip r; str_int (r_channel r); r_current r; r_voltage r; r_resistance r].

Definition line_of (r : reading) : string :=
  r_ip r ++ " - Channel " ++ str_int (r_channel r)
  ++ " - Current: " ++ r_current r ++ ", Voltage: " ++ r_voltage r
  ++ ", Resistance: " ++ r_resistance r.

Definition outputs_of (rs : list reading) (lines : list string) : MainWindow :=
  set_display rs
    (set_stdout (map line_of rs ++ lines)
       (set_csv_file (map row_of rs) new_MainWindow)).

(** The channels of a client polled in order up to the first exception: the
    readings taken, the exception if any, and the client afterwards. *)
Fixpoint poll (chs : list channel) (c : SCPIClient)
  : list reading * option exn * SCPIClient :=
  match chs with
  | [] => ([], None, c)
  | ch :: rest =>
      match measure ch c with
      | (Raise e, c') => ([], Some e, c')
      | (Ok (current, voltage, resistance), c') =>
          let '(rs, e, c'') := poll rest c' in
          ({| r_ip := ip c'; r_channel := number ch; r_current := current;
              r_voltage := voltage; r_resistance := resistance |} :: rs, e, c'')
      end
  end.

Lemma log_channel_blank (ch : channel) (c : SCPIClient) :
  log_channel net ch (new_MainWindow, c) =
    match measure ch c with
    | (Raise e, c') => (Raise e, (new_MainWindow, c'))
    | (Ok (current, voltage, resistance), c') =>
        (Ok tt,
         (outputs_of [ {| r_ip := ip c'; r_channel := number ch; r_current := current;
                          r_voltage := voltage; r_resistance := resistance |} ] [],
          c'))
    end.
Proof.
  unfold log_channel, measure, bind, on_link, zoom. cbn [fst snd].
  destruct (send_command net ("CHAN " ++ str_int (number ch)) c) as [[r1|e1] c1];
    cbn [fst snd]; [|reflexivity].
  destruct (send_command net "MEASure:CURRent?" c1) as [[r2|e2] c2];
    cbn [fst snd]; [|reflexivity].
  destruct (send_command net "MEASure:VOLTage?" c2) as [[r3|e3] c3];
    cbn [fst snd]; [|reflexivity].
  destruct (send_command net "MEASure:RESistance?" c3) as [[r4|e4] c4];
    cbn [fst snd]; [|reflexivity].
  reflexivity.
Qed.

Definition res_of (e : option exn) : res unit :=
  match e with None => Ok tt | Some e => Raise e end.

Lemma absorb_outputs (r : reading) (rs : list reading) (lines : list string) :
  absorb (outputs_of [r] []) (outputs_of rs lines) = outputs_of (r :: rs) lines.
Proof. reflexivity. Qed.

Lemma poll_channels (chs : list channel) (c : SCPIClient) :
  for_each chs (log_channel net) (new_MainWindow, c) =
    let '(rs, e, c') := poll chs c in (res_of e, (outputs_of rs [], c')).
Proof.
  revert c. induction chs as [|ch chs IH]; intros c.
  - reflexivity.
  - cbn [for_each poll]. unfold bind. rewrite log_channel_blank.
    destruct (measure ch c) as [[[[current voltage] resistance]|e] c1]; [|reflexivity].
    rewrite (adds_outputs_for_each _ (log_channel net) chs log_channel_adds).
    rewrite IH. destruct (poll chs c1) as [[rs e] c2].
    rewrite absorb_outputs. reflexivity.
Qed.

Lemma poll_keeps_ip (chs : list channel) (c : SCPIClient) :
  ip (snd (poll chs c)) = ip c.
Proof.
  revert c. induction chs as [|ch chs IH]; intros c; cbn [poll].
  - reflexivity.
  - pose proof (measure_keeps_ip ch c) as Hm.
    destruct (measure ch c) as [[[[current voltage] resistance]|e] c1]; cbn [snd] in *.
    + specialize (IH c1). destruct (poll chs c1) as [[rs e] c2]. cbn [snd] in *. congruence.
    + exact Hm.
Qed.

(** What one client adds to the window in a cycle, and the client afterwards. *)
Definition survey (c : SCPIClient) : MainWindow * SCPIClient :=
  let '(rs, e, c') := poll (channels c) c in
  (outputs_of rs
     match e with
     | None => []
     | Some e => ["Error during logging from " ++ ip c ++ ": " ++ str_exn e]
     end,
   c').

Lemma log_client_run (w : MainWindow) (c : SCPIClient) :
  log_client net (w, c) = (Ok tt, (absorb w (fst (survey c)), snd (survey c))).
Proof.
  rewrite log_client_adds.
  assert (H : log_client net (new_MainWindow, c) = (Ok tt, survey c)).
  { unfold log_client, try_except. unfold bind at 1. unfold get at 1. cbn [snd].
    rewrite poll_channels. unfold survey.
    pose proof (poll_keeps_ip (channels c) c) as Hip.
    destruct (poll (channels c) c) as [[rs [e|]] c1]; cbn [snd res_of] in *.
    - unfold as_Exception, bind, get, on_window, zoom, print, modify. cbn [fst snd].
      rewrite Hip. unfold outputs_of. cbn. rewrite app_nil_r. reflexivity.
    - reflexivity. }
  rewrite H. destruct (survey c) as [d c']. reflexivity.
Qed.

(** The outputs of the clients of a list, one client after the other. *)
Definition gathered (cs : list SCPIClient) : MainWindow :=
  fold_right (fun c acc => absorb (fst (survey c)) acc) new_MainWindow cs.

Lemma log_clients_run (cs : list SCPIClient) (w : MainWindow) :
  log_clients net cs w = (Ok (map (fun c => snd (survey c)) cs), absorb w (gathered cs)).
Proof.
  revert w. induction cs as [|c cs IH]; intros w.
  - cbn. unfold ret. rewrite absorb_blank. reflexivity.
  - cbn [log_clients map gathered fold_right]. unfold bind at 1.
    rewrite log_client_run. cbn [fst snd]. unfold bind. rewrite IH. unfold ret.
    fold (gathered cs). rewrite absorb_absorb. reflexivity.
Qed.

(** A poll cycle never raises: it adds the outputs of the clients to the
    window, client after client, and leaves the rest of the window alone. *)
Lemma log_data_run (w : MainWindow) :
  log_data net w =
    (Ok tt,
     set_scpi_clients (map (fun c => snd (survey c)) (mw_scpi_clients w))
       (absorb w (gathered (mw_scpi_clients w)))).
Proof.
  unfold log_data, open_a. unfold bind at 1. unfold modify at 1.
  replace (set_csv_file (csv_file w) w) with w by (destruct w; reflexivity).
  unfold bind at 1. unfold get. unfold bind. rewrite log_clients_run. reflexivity.
Qed.

Lemma csv_file_gathered (cs : list SCPIClient) :
  csv_file (gathered cs) = flat_map (fun c => csv_file (fst (survey c))) cs.
Proof.
  induction cs as [|c cs IH]; [reflexivity|].
  cbn [gathered fold_right flat_map]. fold (gathered cs). rewrite <- IH. reflexivity.
Qed.

Lemma stdout_gathered (cs : list SCPIClient) :
  stdout (gathered cs) = flat_map (fun c => stdout (fst (survey c))) cs.
Proof.
  induction cs as [|c cs IH]; [reflexivity|].
  cbn [gathered fold_right flat_map]. fold (gathered cs). rewrite <- IH. reflexivity.
Qed.

End LoggerFacts.

(** ** The rows of the log *)

Section LogFacts.

Variable net : network.
Variable int_of_text : string -> option Z.

(** What a client adds to a blank window when its poll is run alone. *)
Definition alone (c : SCPIClient) : MainWindow :=
  fst (snd (log_client net (new_MainWindow, c))).

Lemma alone_survey (c : SCPIClient) : alone c = fst (survey net c).
Proof.
  unfold alone. rewrite log_client_run. cbn [fst snd].
  destruct (survey net c) as [d c'] eqn:E. cbn [fst].
  unfold survey in E. destruct (poll net (channels c) c) as [[rs e] c1].
  inversion E; subst. destruct e; reflexivity.
Qed.

Lemma csv_file_survey (c : SCPIClient) :
  csv_file (fst (survey net c)) = map row_of (fst (fst (poll net (channels c) c))).
Proof.
  unfold survey. destruct (poll net (channels c) c) as [[rs e] c']. reflexivity.
Qed.

(** C3, as the code has it. Every row that a poll cycle appends to the log
    is made of five fields, the address, the channel number and the three
    measurements; it has no time field, while the header written by the
    start of the logging names six columns, [Time] the first. *)
Theorem log_rows_lack_time (w : MainWindow) :
  exists readings : list reading,
    csv_file (snd (log_data net w)) = (csv_file w ++ map row_of readings)%list
    /\ Forall (fun row => List.length row = 5%nat) (map row_of readings)
    /\ List.length fieldnames = 6%nat
    /\ hd EmptyString fieldnames = "Time".
Proof.
  exists (flat_map (fun c => fst (fst (poll net (channels c) c))) (mw_scpi_clients w)).
  rewrite log_data_run. split; [|split; [|split; reflexivity]].
  - destruct w as [cs ? ? ? rows ? ? ? ? ? ?]. cbn [snd csv_file set_scpi_clients absorb
      set_display set_stdout set_csv_file mw_scpi_clients]. f_equal.
    rewrite csv_file_gathered. induction cs as [|c cs IH]; [reflexivity|].
    cbn [flat_map]. rewrite map_app, IH, csv_file_survey. reflexivity.
  - apply Forall_forall. intros row Hin. apply in_map_iff in Hin.
    destruct Hin as (r & <- & _). reflexivity.
Qed.

(** *** A client that fails during a cycle *)

Lemma poll_interrupted (chs : list channel) (c c' : SCPIClient) (rs : list reading)
    (e : exn) :
  poll net chs c = (rs, Some e, c') ->
  exists done ch rest,
    chs = (done ++ ch :: rest)%list /\ map r_channel rs = map number done.
Proof.
  revert c rs. induction chs as [|ch chs IH]; intros c rs H; cbn [poll] in H.
  - discriminate.
  - destruct (measure net ch c) as [[[[current voltage] resistance]|e1] c1].
    + destruct (poll net chs c1) as [[rs1 e2] c2] eqn:Hp. inversion H; subst.
      destruct (IH _ _ Hp) as (done & ch' & rest & -> & Hn).
      exists (ch :: done), ch', rest. split; [reflexivity|].
      cbn [map r_channel]. rewrite Hn. reflexivity.
    + inversion H; subst. exists [], ch, chs. split; reflexivity.
Qed.

(** C6. When the poll of one client of the active set raises, the cycle
    does not: the rows of the client's channels before the failing one are
    in the log, no row of the failing channel or of a later channel is, one
    line naming the client's address reports the exception, and the clients
    before and after it are polled as they are when polled alone.  The
    timers are not touched, so the next cycles come. *)
Theorem client_failure_is_local (w : MainWindow) (before after : list SCPIClient)
    (c c' : SCPIClient) (d : MainWindow) (e : exn) :
  mw_scpi_clients w = (before ++ c :: after)%list ->
  for_each (channels c) (log_channel net) (new_MainWindow, c) = (Raise e, (d, c')) ->
  let w' := snd (log_data net w) in
  (exists done ch rest,
      channels c = (done ++ ch :: rest)%list
      /\ map (fun row => nth 1 row EmptyString) (csv_file d) = map (fun ch => str_int (number ch)) done)
  /\ fst (log_data net w) = Ok tt
  /\ csv_file w' =
       (csv_file w ++ flat_map (fun c => csv_file (alone c)) before
          ++ csv_file d
          ++ flat_map (fun c => csv_file (alone c)) after)%list
  /\ stdout w' =
       (stdout w ++ flat_map (fun c => stdout (alone c)) before
          ++ (stdout d ++ [("Error during logging from " ++ ip c ++ ": " ++ str_exn e)%string])
          ++ flat_map (fun c => stdout (alone c)) after)%list
  /\ timers w' = timers w
  /\ mw_logging_timer w' = mw_logging_timer w.
Proof.
  intros Hcs Hpoll w'.
  rewrite poll_channels in Hpoll.
  destruct (poll net (channels c) c) as [[rs oe] c1] eqn:Hp.
  destruct oe as [e1|]; [|discriminate]. cbn [res_of] in Hpoll.
  inversion Hpoll; subst e1 d c1. clear Hpoll.
  assert (Hsurvey : fst (survey net c) =
            outputs_of rs ["Error during logging from " ++ ip c ++ ": " ++ str_exn e]).
  { unfold survey. rewrite Hp. reflexivity. }
  split.
  { destruct (poll_interrupted _ _ _ _ _ Hp) as (done & ch & rest & Hch & Hn).
    exists done, ch, rest. split; [exact Hch|].
    cbn [outputs_of csv_file set_display set_stdout set_csv_file].
    rewrite map_map. cbn [row_of nth].
    rewrite <- (map_map number str_int done), <- Hn, map_map. reflexivity. }
  unfold w'. rewrite log_data_run. cbn [fst snd]. split; [reflexivity|].
  rewrite Hcs.
  assert (Hal : forall (X : Type) (f : MainWindow -> list X) (cs : list SCPIClient),
            flat_map (fun c => f (alone c)) cs =
            flat_map (fun c => f (fst (survey net c))) cs).
  { intros X f cs. apply flat_map_ext. intros a. rewrite alone_survey. reflexivity. }
  destruct w as [cs0 ? ? ? rows out ? ? ? ? ?].
  cbn [csv_file stdout timers mw_logging_timer set_scpi_clients absorb
       set_display set_stdout set_csv_file].
  split; [|split; [|split; reflexivity]].
  - rewrite csv_file_gathered, flat_map_app. cbn [flat_map].
    rewrite Hsurvey, !Hal. reflexivity.
  - rewrite stdout_gathered, flat_map_app. cbn [flat_map].
    rewrite Hsurvey, !Hal.
    cbn [outputs_of stdout set_display set_stdout set_csv_file new_MainWindow].
    rewrite app_nil_r. reflexivity.
Qed.


End LogFacts.

(** In the first cycle on [bench_window] the second client stops answering
    after the select of its second channel: its first row is logged, the
    exception is reported, the third client is polled, the cycle ends. *)
Lemma client_failure_is_local_witness :
  fst (log_data lab bench_window) = Ok tt
  /\ csv_file (snd (log_data lab bench_window)) =
       [ ["10.0.0.1"; "1"; "ACME,LOAD,1,1.0"; "ACME,LOAD,1,1.0"; "ACME,LOAD,1,1.0"];
         ["10.0.0.1"; "2"; "ACME,LOAD,1,1.0"; "ACME,LOAD,1,1.0"; "ACME,LOAD,1,1.0"];
         ["10.0.0.8"; "1"; "0.5"; "0.5"; "0.5"];
         ["10.0.0.9"; "1"; "0.25"; "0.25"; "0.25"];
         ["10.0.0.9"; "2"; "0.25"; "0.25"; "0.25"] ].
Proof.
  pose (c1 := nth 0 (mw_scpi_clients bench_window) (new_SCPIClient EmptyString 0)).
  pose (c8 := nth 1 (mw_scpi_clients bench_window) (new_SCPIClient EmptyString 0)).
  pose (c9 := nth 2 (mw_scpi_clients bench_window) (new_SCPIClient EmptyString 0)).
  pose (alone8 := for_each (channels c8) (log_channel lab) (new_MainWindow, c8)).
  destruct (client_failure_is_local lab bench_window [c1] [c9] c8
              (snd (snd alone8)) (fst (snd alone8))
              (ConnectionError
                 ("Error sending command to 10.0.0.8: "
                  ++ "Error reading response from 10.0.0.8: timed out"))
              eq_refl eq_refl)
    as (_ & Hok & Hcsv & _).
  split; [exact Hok|]. rewrite Hcsv. reflexivity.
Defined.


(** ** Tasks of the event loop *)

(** A trace in which every resumption of a task is followed at once by the
    end of that task. *)
Inductive exclusive : list marker -> Prop :=
| exclusive_nil : exclusive []
| exclusive_run (i : nat) (j : job) (tr : list marker) :
    exclusive tr -> exclusive (resumed i j :: finished i :: tr).

Lemma exclusive_app (a b : list marker) :
  exclusive a -> exclusive b -> exclusive (a ++ b).
Proof.
  intros Ha Hb. induction Ha as [|i j tr Ha IH]; [exact Hb|].
  cbn [app]. constructor. exact IH.
Qed.

Lemma exclusive_next (tr : list marker) :
  exclusive tr ->
  forall pre i j post, tr = (pre ++ resumed i j :: post)%list ->
  exists post', post = finished i :: post'.
Proof.
  intros H. induction H as [|i0 j0 tr H IH]; intros pre i j post E.
  - destruct pre; discriminate.
  - destruct pre as [|m pre].
    + inversion E; subst. eauto.
    + destruct pre as [|m' pre]; [discriminate|].
      inversion E; subst. eapply IH. reflexivity.
Qed.

Lemma nth_assign_same (X : Type) (xs : list X) (i : nat) (v d : X) :
  nth i (assign i v xs) d = v \/ nth i (assign i v xs) d = d.
Proof.
  revert i. induction xs as [|x xs IH]; intros i.
  - right. destruct i; reflexivity.
  - destruct i; [left; reflexivity | apply IH].
Qed.

Lemma nth_assign_other (X : Type) (xs : list X) (i k : nat) (v d : X) :
  i <> k -> nth k (assign i v xs) d = nth k xs d.
Proof.
  revert i k. induction xs as [|x xs IH]; intros i k Hne.
  - destruct i; reflexivity.
  - destruct i, k; cbn; try reflexivity; [congruence|]. apply IH. congruence.
Qed.

(** The tasks that the loop has resumed, in the order of their resumption. *)
Definition started (tr : list marker) : list nat :=
  flat_map (fun m => match m with resumed i _ => [i] | _ => [] end) tr.

Lemma sorted_snoc (l : list nat) (n : nat) :
  StronglySorted lt l -> Forall (fun i => (i < n)%nat) l -> StronglySorted lt (l ++ [n]).
Proof.
  intros Hs Hb. induction Hs as [|x l Hs IH Hx]; cbn [app].
  - repeat constructor.
  - inversion Hb as [|? ? Hxn Hl]; subst. constructor; [apply IH; exact Hl|].
    apply Forall_app. split; [exact Hx | repeat constructor; exact Hxn].
Qed.

Lemma sorted_prefix (a b : list nat) :
  StronglySorted lt (a ++ b) -> StronglySorted lt a.
Proof.
  induction a as [|x a IH]; cbn [app]; intros H; [constructor|].
  inversion H as [|? ? Hs Hx]; subst. constructor; [apply IH; exact Hs|].
  apply Forall_app in Hx. tauto.
Qed.

Section EventLoopFacts.

Variable net : network.
Variable int_of_text : string -> option Z.

(** The tasks waiting in the loop are coroutines of the program that have
    not run yet. *)
Definition fresh_tasks (l : loop) : Prop :=
  Forall (fun t => code t = coroutine net int_of_text (job_of t)) (ready l).

Lemma coroutine_finishes (j : job) (w : MainWindow) :
  exists r w', resume (coroutine net int_of_text j) w = (Finished r, w').
Proof.
  destruct j as [text|]; cbn [coroutine plain resume].
  - destruct (async_start_logging int_of_text text w) as [r w']. eauto.
  - destruct (log_data net w) as [r w']. eauto.
Qed.

Lemma ensure_future_fresh (j : job) (l : loop) :
  fresh_tasks l -> fresh_tasks (ensure_future net int_of_text j l).
Proof.
  unfold fresh_tasks. intros H. cbn [ensure_future ready].
  apply Forall_app. split; [exact H|]. constructor; [reflexivity | constructor].
Qed.

Lemma handle_sound (o : occurrence) (l : loop) :
  fresh_tasks l /\ exclusive (trace l) ->
  fresh_tasks (handle net int_of_text o l)
  /\ exclusive (trace (handle net int_of_text o l)).
Proof.
  intros [Hf Hx]. destruct o as [text| |t|]; cbn [handle].
  - split; [apply ensure_future_fresh; exact Hf | exact Hx].
  - split; [exact Hf | exact Hx].
  - destruct (nth t (timers (window l)) false).
    + split; [apply ensure_future_fresh; exact Hf | exact Hx].
    + split; [exact Hf | exact Hx].
  - unfold fresh_tasks in *. destruct (ready l) as [|t rest] eqn:Hr.
    + rewrite Hr. split; [exact Hf | exact Hx].
    + inversion Hf as [|? ? Ht Hrest]; subst. unfold step. rewrite Ht.
      destruct (coroutine_finishes (job_of t) (window l)) as (r & w' & ->).
      cbn [ready trace]. split; [exact Hrest|].
      apply exclusive_app; [exact Hx|]. repeat constructor.
Qed.

Lemma exec_sound (os : list occurrence) (l : loop) :
  fresh_tasks l /\ exclusive (trace l) ->
  fresh_tasks (exec net int_of_text os l)
  /\ exclusive (trace (exec net int_of_text os l)).
Proof.
  revert l. induction os as [|o os IH]; intros l H; [exact H|].
  cbn [exec fold_left]. apply IH. apply handle_sound. exact H.
Qed.

(** The tasks resumed so far followed by the tasks that wait: their names
    increase, the loop takes the tasks in the order in which they were made. *)
Definition in_order (l : loop) : Prop :=
  StronglySorted lt (started (trace l) ++ map tid (ready l))
  /\ Forall (fun i => (i < spawned l)%nat) (started (trace l) ++ map tid (ready l)).

Lemma ensure_future_in_order (j : job) (l : loop) :
  in_order l -> in_order (ensure_future net int_of_text j l).
Proof.
  intros [Hs Hb]. unfold in_order. cbn [ensure_future trace ready spawned].
  rewrite map_app, app_assoc. cbn [map tid]. split.
  - apply sorted_snoc; assumption.
  - apply Forall_app. split.
    + eapply Forall_impl; [|exact Hb]. intros i Hi. cbn beta in Hi. lia.
    + repeat constructor.
Qed.

Lemma handle_in_order (o : occurrence) (l : loop) :
  fresh_tasks l -> in_order l -> in_order (handle net int_of_text o l).
Proof.
  intros Hf Hi. destruct o as [text| |t|]; cbn [handle].
  - apply ensure_future_in_order. exact Hi.
  - exact Hi.
  - destruct (nth t (timers (window l)) false);
      [apply ensure_future_in_order|]; exact Hi.
  - unfold fresh_tasks, in_order in *. destruct (ready l) as [|t rest] eqn:Hr.
    + rewrite Hr. exact Hi.
    + inversion Hf as [|? ? Ht Hrest]; subst. unfold step. rewrite Ht.
      destruct (coroutine_finishes (job_of t) (window l)) as (r & w' & ->).
      cbn [ready trace spawned]. unfold started in *. rewrite flat_map_app.
      cbn [flat_map app map] in *. rewrite <- app_assoc. exact Hi.
Qed.

Lemma exec_in_order (os : list occurrence) (l : loop) :
  fresh_tasks l -> exclusive (trace l) -> in_order l ->
  in_order (exec net int_of_text os l).
Proof.
  revert l. induction os as [|o os IH]; intros l Hf Hx Hi; [exact Hi|].
  cbn [exec fold_left].
  destruct (handle_sound o l (conj Hf Hx)) as [Hf' Hx'].
  apply IH; [exact Hf' | exact Hx' | apply handle_in_order; assumption].
Qed.

(** C2. Whatever the clicks and the timer ticks, and in whatever order the
    loop meets them, a task that the loop resumes runs to its end before the
    loop resumes another one: in the trace of the loop every resumption is
    followed at once by the end of the same task, and the tasks are resumed
    in the order in which they were scheduled.  A tick that comes while a
    cycle runs is a task that waits in the queue. *)
Theorem poll_cycles_never_overlap (w : MainWindow) (os : list occurrence) :
  exclusive (trace (exec net int_of_text os (boot w)))
  /\ (forall pre i j post,
        trace (exec net int_of_text os (boot w)) = (pre ++ resumed i j :: post)%list ->
        exists post', post = finished i :: post')
  /\ StronglySorted lt (started (trace (exec net int_of_text os (boot w)))).
Proof.
  assert (H : exclusive (trace (exec net int_of_text os (boot w)))).
  { apply exec_sound. split; constructor. }
  split; [exact H|]. split; [exact (exclusive_next _ H)|].
  apply (sorted_prefix _ (map tid (ready (exec net int_of_text os (boot w))))).
  apply exec_in_order; [constructor | constructor | split; constructor].
Qed.

(** *** After the stop *)

(** No task waits and no timer runs. *)
Definition quiet (l : loop) : Prop :=
  ready l = [] /\ forall t, nth t (timers (window l)) false = false.

Lemma stop_logging_run (w : MainWindow) :
  stop_logging w =
    (Ok tt,
     set_stdout (stdout w ++ ["Stop logging"])
       match mw_logging_timer w with
       | Some t => set_timers (assign t false (timers w)) w
       | None => w
       end).
Proof.
  unfold stop_logging, bind, get. destruct (mw_logging_timer w); reflexivity.
Qed.

Lemma handle_quiet (o : occurrence) (l : loop) :
  (forall text, o <> click_start text) ->
  quiet l ->
  quiet (handle net int_of_text o l)
  /\ csv_file (window (handle net int_of_text o l)) = csv_file (window l).
Proof.
  intros Ho [Hr Ht]. destruct o as [text| |t|]; cbn [handle].
  - exfalso. exact (Ho text eq_refl).
  - rewrite stop_logging_run. cbn [snd window ready]. split; [split; [exact Hr|]|].
    + intros t. destruct (mw_logging_timer (window l)) as [t0|]; cbn; [|apply Ht].
      destruct (Nat.eq_dec t0 t) as [->|Hne].
      * destruct (nth_assign_same _ (timers (window l)) t false false) as [H|H]; exact H.
      * rewrite nth_assign_other by exact Hne. apply Ht.
    + destruct (mw_logging_timer (window l)); reflexivity.
  - rewrite Ht. split; [split; assumption | reflexivity].
  - rewrite Hr. split; [split; assumption | reflexivity].
Qed.

(** C9, amended. When stop is called while no task waits in the loop and no
    timer other than the current one runs, then after it has returned no
    record is appended to the log any more, whatever ticks and stops
    follow, as long as the logging is not started again. *)
Theorem stop_ends_logging (l : loop) (os : list occurrence) :
  ready l = [] ->
  (forall t, mw_logging_timer (window l) <> Some t ->
             nth t (timers (window l)) false = false) ->
  Forall (fun o => forall text, o <> click_start text) os ->
  let stopped := handle net int_of_text click_stop l in
  csv_file (window (exec net int_of_text os stopped)) = csv_file (window stopped).
Proof.
  intros Hr Ht Hos stopped.
  assert (Hq : quiet stopped).
  { unfold stopped. cbn [handle]. rewrite stop_logging_run. split; [exact Hr|].
    cbn [snd window]. intros t.
    destruct (mw_logging_timer (window l)) as [t0|] eqn:Hl; cbn.
    - destruct (Nat.eq_dec t0 t) as [->|Hne].
      + destruct (nth_assign_same _ (timers (window l)) t false false) as [H|H]; exact H.
      + rewrite nth_assign_other by exact Hne. apply Ht. congruence.
    - apply Ht. discriminate. }
  clearbody stopped. revert stopped Hq.
  induction Hos as [|o os Ho Hos IH]; intros s Hq; [reflexivity|].
  cbn [exec fold_left]. destruct (handle_quiet o s Ho Hq) as [Hq' Hcsv].
  fold (exec net int_of_text os (handle net int_of_text o s)).
  rewrite (IH _ Hq'). exact Hcsv.
Qed.

End EventLoopFacts.

(** Two ticks that come before the loop runs the first cycle: the second
    cycle starts after the first one has ended. *)
Lemma poll_cycles_never_overlap_witness :
  trace (exec lab int_dec
           [click_start "1"; iteration; timeout 0; timeout 0; iteration; iteration]
           (boot lab_window)) =
    [ resumed 0 (start_job "1"); finished 0;
      resumed 1 log_job; finished 1;
      resumed 2 log_job; finished 2 ]
  /\ exclusive (trace (exec lab int_dec
                         [click_start "1"; iteration; timeout 0; timeout 0;
                          iteration; iteration]
                         (boot lab_window))).
Proof.
  split; [reflexivity|].
  exact (proj1 (poll_cycles_never_overlap lab int_dec lab_window
                  [click_start "1"; iteration; timeout 0; timeout 0;
                   iteration; iteration])).
Defined.

(** Stopped there, the log keeps its header and its two rows through the
    ticks that follow. *)
Lemma stop_ends_logging_witness :
  csv_file (window (exec lab int_dec [timeout 0; iteration; click_stop; timeout 0; iteration]
                      (handle lab int_dec click_stop idle_loop))) =
    csv_file (window (handle lab int_dec click_stop idle_loop))
  /\ List.length (csv_file (window (handle lab int_dec click_stop idle_loop))) = 3%nat.
Proof.
  split; [|reflexivity].
  refine (stop_ends_logging lab int_dec idle_loop
            [timeout 0; iteration; click_stop; timeout 0; iteration] eq_refl _ _).
  - intros [|t] H; [exfalso; apply H; reflexivity | destruct t; reflexivity].
  - repeat constructor; intros text; discriminate.
Defined.

(** C9 as stated fails for a cycle that is scheduled already: the tick came
    before the stop, its task runs after the stop has returned and the
    timer has been stopped, and two records are appended to the log. *)
Lemma stop_ends_logging_counterexample :
  let stopped :=
    exec lab int_dec [click_start "1"; iteration; timeout 0; click_stop] (boot lab_window) in
  timers (window stopped) = [false]
  /\ csv_file (window stopped) = [fieldnames]
  /\ csv_file (window (exec lab int_dec [iteration] stopped)) =
       [ fieldnames;
         ["10.0.0.1"; "1"; "ACME,LOAD,1,1.0"; "ACME,LOAD,1,1.0"; "ACME,LOAD,1,1.0"];
         ["10.0.0.1"; "2"; "ACME,LOAD,1,1.0"; "ACME,LOAD,1,1.0"; "ACME,LOAD,1,1.0"] ].
Proof. cbv zeta. split; [reflexivity|]. split; reflexivity. Qed.

(** ** The manual command *)

Section ManualFacts.

Variable net : network.
Variable int_of_text : string -> option Z.



End ManualFacts.



(** * Further properties of the code *)

(** ** What the worker sends to a device of either kind *)

(** The commands of [initialize_channel] for a channel of any type: the
    select, the mode, and a setpoint command when the type is one of the
    three that the method knows. *)
Definition channel_commands (str_float : float -> string) (ch : channel) : list string :=
  ["CHAN " ++ str_int (number ch); "FUNC " ++ type ch]
  ++ (if (type ch =? "RES")%string then ["RES " ++ str_float (value ch)]
      else if (type ch =? "CURR")%string then ["CURR " ++ str_float (value ch)]
      else if (type ch =? "VOLT")%string then ["VOLT " ++ str_float (value ch)]
      else []).

(** The indexed commands of a power supply. *)
Definition voltage_command (str_float : float -> string) (s : setting) : string :=
  "VOLT " ++ str_int (s_number s) ++ "," ++ str_float (s_value s).

Definition current_command (str_float : float -> string) (s : setting) : string :=
  "CURR " ++ str_int (s_number s) ++ "," ++ str_float (s_value s).

(** The commands that configure a device, after the identification query. *)
Definition settings_commands (str_float : float -> string) (d : device) : list string :=
  match d_kind d with
  | Load cs => flat_map (channel_commands str_float) cs
  | Supply vs cs =>
      (map (voltage_command str_float) vs ++ map (current_command str_float) cs)%list
  end.

Definition device_commands (str_float : float -> string) (d : device) : list string :=
  "*IDN?" :: settings_commands str_float d.

(** On a connected link that answers the commands [l], the computation
    returns a value. *)
Definition answers {A : Type} (m : M SCPIClient A) (l : list string) : Prop :=
  forall c p sent,
    sock c = Some (Connected p sent) ->
    answered p sent l ->
    exists a, fst (m c) = Ok a.

Lemma answers_ret (A : Type) (a : A) : answers (ret a) [].
Proof. intros c p sent _ _. exists a. reflexivity. Qed.

Lemma answers_bind (A B : Type) (m : M SCPIClient A) (k : A -> M SCPIClient B)
    (l1 l2 : list string) :
  sends m l1 -> answers m l1 -> (forall a, answers (k a) l2) ->
  answers (bind m k) (l1 ++ l2).
Proof.
  intros Hs Ha Hk c p sent Hsock Hans.
  apply answered_app in Hans. destruct Hans as [H1 H2].
  destruct (Ha c p sent Hsock H1) as [a Hok].
  destruct (Hs c p sent Hsock) as (d1 & _ & Hs1 & Hd).
  unfold bind. destruct (m c) as [[a'|e] c1]; cbn [fst snd] in *; [|discriminate].
  rewrite (Hd a' eq_refl) in Hs1. exact (Hk a' c1 p (sent ++ l1)%list Hs1 H2).
Qed.

Lemma answers_for_each (X : Type) (f : X -> M SCPIClient unit) (g : X -> list string)
    (xs : list X) :
  Forall (fun x => sends (f x) (g x) /\ answers (f x) (g x)) xs ->
  answers (for_each xs f) (flat_map g xs).
Proof.
  induction 1 as [|x xs [Hs Ha] Hxs IH]; cbn [for_each flat_map].
  - apply answers_ret.
  - apply answers_bind; [exact Hs | exact Ha | intros _; exact IH].
Qed.

Lemma map_flat_map (X Y : Type) (f : X -> Y) (xs : list X) :
  map f xs = flat_map (fun x => [f x]) xs.
Proof. induction xs as [|x xs IH]; [reflexivity|]. cbn. rewrite IH. reflexivity. Qed.

Section DeviceCommands.

Variable net : network.
Variable str_float : float -> string.

Lemma answers_send_command (command : string) :
  answers (send_command net command) [command].
Proof.
  intros c p sent Hs (Hf & (raw & Hr) & _).
  rewrite (send_command_connected net c p sent command Hs), Hf, Hr.
  eexists. reflexivity.
Qed.

Lemma one_command (command : string) :
  sends (send_command net command ;; ret tt) [command]
  /\ answers (send_command net command ;; ret tt) [command].
Proof.
  change [command] with ([command] ++ [])%list. split.
  - apply sends_bind; [apply sends_send_command | intros _; apply sends_ret].
  - apply answers_bind;
      [apply sends_send_command | apply answers_send_command | intros _; apply answers_ret].
Qed.

Lemma initialize_channel_commands (ch : channel) :
  sends (initialize_channel net str_float ch) (channel_commands str_float ch)
  /\ answers (initialize_channel net str_float ch) (channel_commands str_float ch).
Proof.
  unfold initialize_channel, channel_commands. cbv zeta.
  change ([?a; ?b] ++ ?l)%list with ([a] ++ [b] ++ l)%list.
  assert (Hrest :
    forall (m : M SCPIClient unit) (l : list string),
      sends m l /\ answers m l ->
      sends (send_command net ("CHAN " ++ str_int (number ch)) ;;
             send_command net ("FUNC " ++ type ch) ;; m)
            (["CHAN " ++ str_int (number ch)] ++ ["FUNC " ++ type ch] ++ l)
      /\ answers (send_command net ("CHAN " ++ str_int (number ch)) ;;
                 send_command net ("FUNC " ++ type ch) ;; m)
                (["CHAN " ++ str_int (number ch)] ++ ["FUNC " ++ type ch] ++ l)).
  { intros m l [Hs Ha]. split.
    - apply sends_bind; [apply sends_send_command | intros _].
      apply sends_bind; [apply sends_send_command | intros _; exact Hs].
    - apply answers_bind; [apply sends_send_command | apply answers_send_command | intros _].
      apply answers_bind;
        [apply sends_send_command | apply answers_send_command | intros _; exact Ha]. }
  apply Hrest.
  destruct (type ch =? "RES")%string; [apply one_command|].
  destruct (type ch =? "CURR")%string; [apply one_command|].
  destruct (type ch =? "VOLT")%string; [apply one_command|].
  split; [apply sends_ret | apply answers_ret].
Qed.

(** The configuration of a device on its connected client. *)
Lemma configure_commands (d : device) (c : SCPIClient) (p : peer) (sent : list string) :
  channels c = get_channels d ->
  sock c = Some (Connected p sent) ->
  (exists done,
      initial_part done (settings_commands str_float d)
      /\ sock (snd (configure net str_float d c)) = Some (Connected p (sent ++ done))
      /\ (forall a, fst (configure net str_float d c) = Ok a ->
                    done = settings_commands str_float d))
  /\ (answered p sent (settings_commands str_float d) ->
      exists a, fst (configure net str_float d c) = Ok a).
Proof.
  intros Hch Hs. unfold configure, settings_commands, get_channels in *.
  destruct (d_kind d) as [cs|vs cs].
  - rewrite Hch.
    assert (Hall : Forall (fun ch =>
                     sends (initialize_channel net str_float ch)
                       (channel_commands str_float ch)
                     /\ answers (initialize_channel net str_float ch)
                          (channel_commands str_float ch)) cs).
    { apply Forall_forall. intros ch _. apply initialize_channel_commands. }
    split.
    + apply sends_for_each; [|exact Hs].
      eapply Forall_impl; [|exact Hall]. intros ch [H _]. exact H.
    + intros Ha. exact (answers_for_each _ _ _ cs Hall c p sent Hs Ha).
  - rewrite !map_flat_map.
    assert (Hv : Forall (fun s =>
                   sends (initialize_voltage_channel net str_float s)
                     [voltage_command str_float s]
                   /\ answers (initialize_voltage_channel net str_float s)
                        [voltage_command str_float s]) vs).
    { apply Forall_forall. intros s _. apply one_command. }
    assert (Hc : Forall (fun s =>
                   sends (initialize_current_channel net str_float s)
                     [current_command str_float s]
                   /\ answers (initialize_current_channel net str_float s)
                        [current_command str_float s]) cs).
    { apply Forall_forall. intros s _. apply one_command. }
    assert (Hsv : sends (for_each vs (initialize_voltage_channel net str_float))
                    (flat_map (fun s => [voltage_command str_float s]) vs)).
    { apply sends_for_each. eapply Forall_impl; [|exact Hv]. intros s [H _]. exact H. }
    assert (Hsc : sends (for_each cs (initialize_current_channel net str_float))
                    (flat_map (fun s => [current_command str_float s]) cs)).
    { apply sends_for_each. eapply Forall_impl; [|exact Hc]. intros s [H _]. exact H. }
    split.
    + apply sends_bind; [exact Hsv | intros _; exact Hsc | exact Hs].
    + intros Ha.
      refine (answers_bind _ _ _ _ _ _ Hsv _ _ c p sent Hs Ha).
      * apply answers_for_each. exact Hv.
      * intros _. apply answers_for_each. exact Hc.
Qed.

(** What [attempt] sends for a device, and what it does when the device
    answers everything. *)
Lemma attempt_commands (d : device) (w : AsyncWorker) :
  initial_part (commands_sent net str_float d w) (device_commands str_float d)
  /\ (identifies net d ->
      answered (net (d_ip d) (d_port d)) ["*IDN?"] (settings_commands str_float d) ->
      exists w' c response,
        attempt net str_float d (w, make_client d) = (Ok tt, (w', c))
        /\ scpi_clients w' = (scpi_clients w ++ [c])%list
        /\ emitted w' = (emitted w ++ [result (online_message d response)])%list
        /\ sent_on c = device_commands str_float d).
Proof.
  unfold commands_sent, device_commands. rewrite attempt_run.
  set (p := net (d_ip d) (d_port d)).
  change (net (ip (make_client d)) (port (make_client d))) with p.
  destruct (refuses p) as [e|] eqn:Hr.
  { assert (Hr' : refuses (net (ip (make_client d)) (port (make_client d))) = Some e)
      by exact Hr.
    rewrite (connect_refused net _ e Hr'). split.
    - cbn. eexists. reflexivity.
    - intros (Hacc & _). fold p in Hacc. congruence. }
  assert (Hr' : refuses (net (ip (make_client d)) (port (make_client d))) = None)
    by exact Hr.
  rewrite (connect_accepted net _ Hr').
  change (net (ip (make_client d)) (port (make_client d))) with p.
  set (c1 := set_sock _ (make_client d)).
  assert (Hs1 : sock c1 = Some (Connected p [])) by reflexivity.
  destruct (sends_send_command net "*IDN?" c1 p [] Hs1) as (d1 & Hp1 & Hsock1 & Hok1).
  pose proof (send_command_keeps net c1 "*IDN?") as (_ & _ & Hch).
  pose proof (send_command_connected net c1 p [] "*IDN?" Hs1) as Hidn.
  destruct (send_command net "*IDN?" c1) as [[response|e] c2] eqn:Hsend;
    cbn [fst snd app] in *.
  2:{ split.
      - unfold sent_on. rewrite Hsock1. apply (initial_part_app d1 ["*IDN?"]). exact Hp1.
      - intros (_ & Hsf & raw & Hrecv & _). fold p in Hsf, Hrecv.
        rewrite Hsf, Hrecv in Hidn. discriminate. }
  rewrite (Hok1 response eq_refl) in Hsock1.
  assert (Hcs : channels c2 = get_channels d).
  { rewrite Hch. reflexivity. }
  destruct (configure_commands d c2 p ["*IDN?"] Hcs Hsock1)
    as [(d2 & Hp2 & Hsock2 & Hok2) Hans].
  destruct (truthy response) eqn:Ht.
  2:{ split.
      - unfold sent_on. cbn [snd]. rewrite Hsock1. eexists. reflexivity.
      - intros (_ & Hsf & raw & Hrecv & Hne). fold p in Hsf, Hrecv.
        rewrite Hsf, Hrecv in Hidn. inversion Hidn; subst. congruence. }
  cbv zeta. split.
  - destruct (configure net str_float d c2) as [[[]|e] c3];
      cbn [fst snd] in *; unfold sent_on; rewrite Hsock2;
      apply (initial_part_after ["*IDN?"]); exact Hp2.
  - intros _ Ha. fold p in Ha. destruct (Hans Ha) as [a Hok].
    destruct (configure net str_float d c2) as [[[]|e] c3]; cbn [fst snd] in *;
      [|discriminate].
    exists (append_client c3 (emit_on (result (online_message d response)) w)), c3, response.
    split; [reflexivity|]. split; [reflexivity|]. split; [reflexivity|].
    unfold sent_on. rewrite Hsock2, (Hok2 tt eq_refl). reflexivity.
Qed.

End DeviceCommands.

(** The computation leaves the address and the channels of the client
    alone. *)
Definition keeps {A : Type} (m : M SCPIClient A) : Prop :=
  forall c,
    ip (snd (m c)) = ip c /\ port (snd (m c)) = port c
    /\ channels (snd (m c)) = channels c.

Lemma keeps_ret (A : Type) (a : A) : keeps (ret a).
Proof. intros c. repeat split. Qed.

Lemma keeps_bind (A B : Type) (m : M SCPIClient A) (k : A -> M SCPIClient B) :
  keeps m -> (forall a, keeps (k a)) -> keeps (bind m k).
Proof.
  intros Hm Hk c. unfold bind. destruct (Hm c) as (H1 & H2 & H3).
  destruct (m c) as [[a|e] c1]; cbn [snd] in *; [|auto].
  destruct (Hk a c1) as (K1 & K2 & K3). repeat split; congruence.
Qed.

Lemma keeps_for_each (X : Type) (f : X -> M SCPIClient unit) (xs : list X) :
  (forall x, keeps (f x)) -> keeps (for_each xs f).
Proof.
  intros Hf. induction xs as [|x xs IH]; cbn [for_each].
  - apply keeps_ret.
  - apply keeps_bind; [apply Hf | intros _; exact IH].
Qed.

Section Keeping.

Variable net : network.
Variable str_float : float -> string.

Lemma keeps_send_command (command : string) : keeps (send_command net command).
Proof. intros c. apply send_command_keeps. Qed.

Lemma keeps_connect : keeps (connect net).
Proof.
  intros c. destruct (refuses (net (ip c) (port c))) as [e|] eqn:Hr.
  - rewrite (connect_refused net c e Hr). repeat split.
  - rewrite (connect_accepted net c Hr). repeat split.
Qed.

Lemma keeps_configure (d : device) : keeps (configure net str_float d).
Proof.
  assert (Hone : forall cmd, keeps (send_command net cmd ;; ret tt)).
  { intros cmd. apply keeps_bind; [apply keeps_send_command | intros _; apply keeps_ret]. }
  unfold configure. destruct (d_kind d) as [cs|vs cs].
  - intros c. apply (keeps_for_each _ (initialize_channel net str_float) (channels c)).
    intros ch. unfold initialize_channel. cbv zeta.
    apply keeps_bind; [apply keeps_send_command | intros _].
    apply keeps_bind; [apply keeps_send_command | intros _].
    destruct (type ch =? "RES")%string; [apply Hone|].
    destruct (type ch =? "CURR")%string; [apply Hone|].
    destruct (type ch =? "VOLT")%string; [apply Hone | apply keeps_ret].
  - apply keeps_bind; [|intros _]; apply keeps_for_each; intros s; apply Hone.
Qed.

(** The client that leaves [attempt] has the address and the channels of
    the client that entered it. *)
Lemma attempt_keeps (d : device) (w : AsyncWorker) (c : SCPIClient) :
  let c' := snd (snd (attempt net str_float d (w, c))) in
  ip c' = ip c /\ port c' = port c /\ channels c' = channels c.
Proof.
  cbv zeta. rewrite attempt_run.
  destruct (keeps_connect c) as (A1 & A2 & A3).
  destruct (connect net c) as [[[]|e1] c1]; cbn [snd] in *; [|auto].
  destruct (keeps_send_command "*IDN?" c1) as (B1 & B2 & B3).
  destruct (send_command net "*IDN?" c1) as [[response|e2] c2]; cbn [snd] in *;
    [|repeat split; congruence].
  destruct (truthy response); [|cbn [snd]; repeat split; congruence].
  cbv zeta. destruct (keeps_configure d c2) as (C1 & C2 & C3).
  destruct (configure net str_float d c2) as [[[]|e3] c3]; cbn [snd] in *;
    repeat split; congruence.
Qed.

End Keeping.

Section DeviceCommandFacts.

Variable net : network.
Variable str_float : float -> string.



End DeviceCommandFacts.



(** ** More on the link *)

Section LinkMore.

Variable net : network.



End LinkMore.



(** ** More on the run of the worker *)



Section RunMore.

Variable net : network.
Variable str_float : float -> string.


(** The client that the visit of a device leaves, if any. *)
Lemma visit_client (d : device) (c : SCPIClient) :
  In c (snd (visit net str_float d)) ->
  snd (visit net str_float d) = [c]
  /\ ip c = d_ip d /\ port c = d_port d /\ channels c = get_channels d
  /\ sock c = Some (Connected (net (d_ip d) (d_port d))
                      (device_commands str_float d)).
Proof.
  intros Hin.
  pose proof (attempt_keeps net str_float d (new_AsyncWorker []) (make_client d))
    as (K1 & K2 & K3).
  destruct (attempt_commands net str_float d (new_AsyncWorker [])) as [_ Hfull].
  unfold visit in *. rewrite attempt_run in K1, K2, K3.
  destruct (refuses (net (ip (make_client d)) (port (make_client d)))) as [e|] eqn:Hr.
  { rewrite (connect_refused net _ e Hr) in Hin. destruct Hin. }
  rewrite (connect_accepted net _ Hr) in *.
  set (p := net (ip (make_client d)) (port (make_client d))) in *.
  set (c1 := set_sock _ (make_client d)) in *.
  assert (Hs1 : sock c1 = Some (Connected p [])) by reflexivity.
  destruct (sends_send_command net "*IDN?" c1 p [] Hs1) as (d1 & _ & Hsock1 & Hok1).
  pose proof (send_command_keeps net c1 "*IDN?") as (_ & _ & Hch).
  destruct (send_command net "*IDN?" c1) as [[response|e] c2]; cbn [fst snd app] in *;
    [|destruct Hin].
  rewrite (Hok1 response eq_refl) in Hsock1.
  destruct (truthy response); [|destruct Hin].
  cbv zeta in *.
  assert (Hcs : channels c2 = get_channels d) by (rewrite Hch; reflexivity).
  destruct (configure_commands net str_float d c2 p ["*IDN?"] Hcs Hsock1)
    as [(d2 & _ & Hsock2 & Hok2) _].
  destruct (configure net str_float d c2) as [[[]|e] c3]; cbn [fst snd] in *;
    [|destruct Hin].
  destruct Hin as [<- | []].
  split; [reflexivity|]. split; [exact K1|]. split; [exact K2|]. split; [exact K3|].
  rewrite Hsock2, (Hok2 tt eq_refl). reflexivity.
Qed.

(** X5. Every client that a run retains is connected, has the address and
    the channels of a device of the list, and has been sent the whole
    sequence of that device, the identification query first; no more
    clients are retained than there are devices. *)
Theorem retained_clients_are_configured (ds : list device) :
  let w := snd (run net str_float (new_AsyncWorker ds)) in
  Forall (fun c =>
            exists d,
              In d ds
              /\ ip c = d_ip d /\ port c = d_port d /\ channels c = get_channels d
              /\ sock c = Some (Connected (net (d_ip d) (d_port d))
                                  (device_commands str_float d)))
         (scpi_clients w)
  /\ (List.length (scpi_clients w) <= List.length ds)%nat.
Proof.
  cbv zeta. rewrite run_spec. cbn [snd scpi_clients].
  pose proof visit_client as Hvisit.
  split.
  - apply Forall_forall. intros c Hin. unfold clients_of in Hin.
    apply in_flat_map in Hin. destruct Hin as (d & Hd & Hc).
    destruct (Hvisit d c Hc) as (_ & H). exists d. split; [exact Hd | exact H].
  - unfold clients_of. induction ds as [|d ds IH]; [apply Nat.le_refl|].
    cbn [flat_map List.length]. rewrite length_app.
    assert (Hone : (List.length (snd (visit net str_float d)) <= 1)%nat).
    { destruct (snd (visit net str_float d)) as [|c l] eqn:E; [cbn; lia|].
      destruct (Hvisit d c) as (E' & _); [rewrite E; left; reflexivity|].
      rewrite E in E'. inversion E'; subst. cbn. lia. }
    lia.
Qed.



End RunMore.



(** ** More on the poll cycle *)

(** The four commands of [log_channel] for a channel. *)
Definition poll_commands (ch : channel) : list string :=
  ["CHAN " ++ str_int (number ch);
   "MEASure:CURRent?"; "MEASure:VOLTage?"; "MEASure:RESistance?"].

Section PollMore.

Variable net : network.

Lemma measure_commands (ch : channel) :
  sends (measure net ch) (poll_commands ch)
  /\ answers (measure net ch) (poll_commands ch)
  /\ keeps (measure net ch).
Proof.
  unfold measure, poll_commands.
  change [?a; ?b; ?c; ?d] with ([a] ++ [b] ++ [c] ++ [d] ++ [])%list.
  split; [|split].
  - apply sends_bind; [apply sends_send_command | intros _].
    apply sends_bind; [apply sends_send_command | intros current].
    apply sends_bind; [apply sends_send_command | intros voltage].
    apply sends_bind; [apply sends_send_command | intros resistance; apply sends_ret].
  - apply answers_bind; [apply sends_send_command | apply answers_send_command | intros _].
    apply answers_bind;
      [apply sends_send_command | apply answers_send_command | intros current].
    apply answers_bind;
      [apply sends_send_command | apply answers_send_command | intros voltage].
    apply answers_bind;
      [apply sends_send_command | apply answers_send_command
      | intros resistance; apply answers_ret].
  - apply keeps_bind; [apply keeps_send_command | intros _].
    apply keeps_bind; [apply keeps_send_command | intros current].
    apply keeps_bind; [apply keeps_send_command | intros voltage].
    apply keeps_bind; [apply keeps_send_command | intros resistance; apply keeps_ret].
Qed.


Lemma poll_keeps (chs : list channel) (c : SCPIClient) :
  let '(rs, e, c') := poll net chs c in
  ip c' = ip c /\ port c' = port c /\ channels c' = channels c
  /\ (List.length rs <= List.length chs)%nat.
Proof.
  revert c. induction chs as [|ch chs IH]; intros c; cbn [poll].
  - repeat split. apply Nat.le_refl.
  - destruct (measure_commands ch) as (_ & _ & Hkeep).
    destruct (Hkeep c) as (H1 & H2 & H3).
    destruct (measure net ch c) as [[[[current voltage] resistance]|e] c1];
      cbn [snd] in *.
    + specialize (IH c1). destruct (poll net chs c1) as [[rs e] c2].
      destruct IH as (I1 & I2 & I3 & I4). cbn [List.length].
      repeat split; try congruence. lia.
    + repeat split; try assumption. cbn. lia.
Qed.


Lemma rows_gathered (cs : list SCPIClient) :
  csv_file (gathered net cs) =
    map row_of (flat_map (fun c => fst (fst (poll net (channels c) c))) cs).
Proof.
  rewrite csv_file_gathered. induction cs as [|c cs IH]; [reflexivity|].
  cbn [flat_map]. rewrite map_app, IH, csv_file_survey. reflexivity.
Qed.



(** X11. A poll cycle never changes the active set: after it the window
    holds as many clients as before, with the same addresses and channels,
    also the clients that failed.  It appends at most one row per channel of
    the set, and it leaves the timers and the loaded devices alone. *)
Theorem poll_cycle_keeps_the_active_set (w : MainWindow) :
  let w' := snd (log_data net w) in
  map (fun c => (ip c, port c, channels c)) (mw_scpi_clients w')
    = map (fun c => (ip c, port c, channels c)) (mw_scpi_clients w)
  /\ (List.length (csv_file w')
      <= List.length (csv_file w)
         + List.length (flat_map channels (mw_scpi_clients w)))%nat
  /\ timers w' = timers w
  /\ mw_logging_timer w' = mw_logging_timer w
  /\ mw_devices w' = mw_devices w.
Proof.
  cbv zeta. rewrite log_data_run. cbn [snd]. destruct w as [cs ? ? ? rows ? ? ? ? ? ?].
  cbn [mw_scpi_clients csv_file timers mw_logging_timer mw_devices set_scpi_clients
       absorb set_display set_stdout set_csv_file].
  split; [|split; [|repeat split]].
  - rewrite map_map. apply map_ext. intros c. unfold survey.
    pose proof (poll_keeps (channels c) c) as H.
    destruct (poll net (channels c) c) as [[rs e] c']. cbn [snd].
    destruct H as (H1 & H2 & H3 & _). rewrite H1, H2, H3. reflexivity.
  - rewrite length_app, rows_gathered, length_map. apply Nat.add_le_mono_l.
    induction cs as [|c cs IH]; [apply Nat.le_refl|].
    cbn [flat_map]. rewrite !length_app.
    pose proof (poll_keeps (channels c) c) as H.
    destruct (poll net (channels c) c) as [[rs e] c']. cbn [fst].
    destruct H as (_ & _ & _ & H4). lia.
Qed.

End PollMore.


(** ** Power supplies and the poll cycle *)

Section SupplyPoll.

Variable net : network.
Variable str_float : float -> string.

Lemma log_data_without_channels (w : MainWindow) :
  Forall (fun c => channels c = []) (mw_scpi_clients w) ->
  log_data net w = (Ok tt, w).
Proof.
  intros H. rewrite log_data_run.
  assert (Hs : forall cs, Forall (fun c => channels c = []) cs ->
            map (fun c => snd (survey net c)) cs = cs
            /\ gathered net cs = new_MainWindow).
  { induction cs as [|c cs IH]; intros Hcs; [split; reflexivity|].
    inversion Hcs as [|? ? Hc Hrest]; subst. destruct (IH Hrest) as [I1 I2].
    cbn [map gathered fold_right]. fold (gathered net cs). rewrite I1, I2.
    unfold survey. rewrite Hc. cbn [poll]. split; reflexivity. }
  destruct (Hs _ H) as [-> ->]. rewrite absorb_blank. destruct w; reflexivity.
Qed.

(** X10. The clients retained for power supplies have no channels, so the
    logger never polls a supply: in a window whose active set comes from a
    run over power supplies only, a poll cycle sends no command, logs no
    row and changes nothing at all. *)
Theorem supplies_are_never_polled (ds : list device) (w : MainWindow) :
  Forall (fun d => exists vs cs, d_kind d = Supply vs cs) ds ->
  mw_scpi_clients w = scpi_clients (snd (run net str_float (new_AsyncWorker ds))) ->
  Forall (fun c => channels c = []) (mw_scpi_clients w)
  /\ log_data net w = (Ok tt, w).
Proof.
  intros Hds Hw.
  assert (H : Forall (fun c => channels c = []) (mw_scpi_clients w)).
  { rewrite Hw, run_spec. cbn [snd scpi_clients]. apply Forall_forall. intros c Hin.
    unfold clients_of in Hin. apply in_flat_map in Hin. destruct Hin as (d & Hd & Hc).
    destruct (visit_client net str_float d c Hc) as (_ & _ & _ & Hch & _).
    rewrite Forall_forall in Hds. destruct (Hds d Hd) as (vs & cs & Hk).
    rewrite Hch. unfold get_channels. rewrite Hk. reflexivity. }
  split; [exact H | apply log_data_without_channels; exact H].
Qed.

End SupplyPoll.

(** The supply [dev3] is retained by the run and never polled. *)
Lemma supplies_are_never_polled_witness :
  let w := set_scpi_clients
             (scpi_clients (snd (run lab repr_integral (new_AsyncWorker [dev3]))))
             new_MainWindow in
  List.length (mw_scpi_clients w) = 1%nat /\ log_data lab w = (Ok tt, w).
Proof.
  cbv zeta. split; [reflexivity|].
  apply (supplies_are_never_polled lab repr_integral [dev3]).
  - repeat constructor. eexists. eexists. reflexivity.
  - reflexivity.
Defined.

(** ** A second start *)


Section SecondStart.

Variable net : network.
Variable int_of_text : string -> option Z.




End SecondStart.


(** ** The manual command and the rest of the window *)

Section ManualMore.

Variable net : network.
Variable int_of_text : string -> option Z.

(** What the logger and the initialization work with. *)
Definition logger_state (w : MainWindow)
  : list SCPIClient * option nat * option (list device_info) * list bool
    * list (list string) * list string * list dialog * list reading :=
  (mw_scpi_clients w, mw_logging_timer w, mw_devices w, timers w, csv_file w, stdout w,
   dialogs w, display w).

(** X13. Whatever the three input fields hold and whatever the instrument
    does, also when the coroutine ends with an exception, a manual command
    leaves the active set, the timers, the log, the standard output, the
    dialogs and the display as they are. *)
Theorem manual_command_leaves_the_logger_alone (ip port_text command : string)
    (w : MainWindow) :
  logger_state
    (snd (async_connect_and_send_manual_command net int_of_text ip port_text command w))
  = logger_state w.
Proof.
  unfold async_connect_and_send_manual_command, bind, call, int_.
  destruct (int_of_text port_text) as [port|]; [|reflexivity].
  destruct (negb (truthy ip) || (port =? 0) || negb (truthy command)).
  { destruct w; reflexivity. }
  unfold manual_exchange, bind, on_link, on_window, zoom, modify. cbn [fst snd].
  destruct (connect net (new_SCPIClient ip port)) as [[[]|e] c1]; cbn [fst snd];
    [|destruct w; reflexivity].
  destruct (send_command net command c1) as [[response|e] c2]; cbn [fst snd];
    [|destruct w; reflexivity].
  destruct (truthy response); destruct w; reflexivity.
Qed.

(** X14. The guard of the manual command: with an empty address, the port
    0 or an empty command nothing is connected, and only the status line
    changes.  A port text that [int] refuses, the empty text included,
    raises [ValueError] before the guard: the window is left as it is and
    no message is shown. *)
Theorem manual_command_guard (ip port_text command : string) (w : MainWindow) :
  (int_of_text port_text = None ->
   async_connect_and_send_manual_command net int_of_text ip port_text command w =
     (Raise ValueError, w))
  /\ (forall port,
        int_of_text port_text = Some port ->
        truthy ip = false \/ port = 0 \/ truthy command = false ->
        async_connect_and_send_manual_command net int_of_text ip port_text command w =
          (Ok tt,
           set_manual_command_status "Lütfen geçerli bir IP, Port ve Komut girin." w)).
Proof.
  unfold async_connect_and_send_manual_command, bind, call, int_. split.
  - intros ->. reflexivity.
  - intros port -> Hg.
    assert (Hb : negb (truthy ip) || (port =? 0) || negb (truthy command) = true).
    { destruct Hg as [-> | [-> | ->]]; cbn; rewrite ?orb_true_r; reflexivity. }
    rewrite Hb. reflexivity.
Qed.

End ManualMore.

(** A manual command to an address that refuses the connection, during a
    logging session: the exception leaves the coroutine, the session is as
    it was. *)
Lemma manual_command_leaves_the_logger_alone_witness :
  fst (async_connect_and_send_manual_command lab int_dec "10.0.0.2" "5025" "*IDN?"
         logged_window)
    = Raise (ConnectionError
               "Connection error to 10.0.0.2: [Errno 111] Connection refused")
  /\ logger_state
       (snd (async_connect_and_send_manual_command lab int_dec "10.0.0.2" "5025" "*IDN?"
               logged_window))
     = logger_state logged_window.
Proof.
  split; [reflexivity|].
  apply (manual_command_leaves_the_logger_alone lab int_dec).
Defined.

(** An empty port field. *)
Lemma manual_command_guard_witness :
  async_connect_and_send_manual_command lab int_dec "10.0.0.1" EmptyString "*IDN?"
    new_MainWindow = (Raise ValueError, new_MainWindow)
  /\ async_connect_and_send_manual_command lab int_dec EmptyString "5025" "*IDN?"
       new_MainWindow =
       (Ok tt,
        set_manual_command_status "Lütfen geçerli bir IP, Port ve Komut girin."
          new_MainWindow).
Proof.
  destruct (manual_command_guard lab int_dec "10.0.0.1" EmptyString "*IDN?" new_MainWindow)
    as [H1 _].
  destruct (manual_command_guard lab int_dec EmptyString "5025" "*IDN?" new_MainWindow)
    as [_ H2].
  split; [apply H1; reflexivity | apply (H2 5025); [reflexivity | left; reflexivity]].
Defined.

(** ** The order of the loaded devices *)

Lemma collect_ok (X Y : Type) (f : X -> res Y) (xs : list X) (ys : list Y) :
  collect xs f = Ok ys -> Forall2 (fun x y => f x = Ok y) xs ys.
Proof.
  revert ys. induction xs as [|x xs IH]; intros ys H; cbn in H.
  - inversion H. constructor.
  - unfold try_ in H. destruct (f x) as [y|e] eqn:Hx; [|discriminate].
    destruct (collect xs f) as [ys'|e]; [|discriminate].
    inversion H; subst. constructor; [exact Hx | apply IH; reflexivity].
Qed.

(** The fields [id], [ip] and [port] of a loaded device. *)
Definition info_id (d : device_info) : option string :=
  match d with LoadInfo id _ _ _ | SupplyInfo id _ _ _ _ => id end.

Definition info_ip (d : device_info) : option string :=
  match d with LoadInfo _ ip _ _ | SupplyInfo _ ip _ _ _ => ip end.

Definition info_port (d : device_info) : Z :=
  match d with LoadInfo _ _ port _ | SupplyInfo _ _ port _ _ => port end.

Definition is_load (d : device_info) : bool :=
  match d with LoadInfo _ _ _ _ => true | SupplyInfo _ _ _ _ _ => false end.

Section LoaderOrder.

Variable fs : string -> file.
Variable int_of_text : string -> option Z.
Variable float_of_text : string -> option float.

(** The element [e] was read into [d]: the id and the address are the
    texts of its first [ID] and [IP] children, the port is [int] of the text
    of its first [Port] child. *)
Definition read_from (e : element) (d : device_info) : Prop :=
  find_text e "ID" = Ok (info_id d)
  /\ find_text e "IP" = Ok (info_ip d)
  /\ exists t, find_text e "Port" = Ok t /\ int_ int_of_text t = Ok (info_port d).

Ltac accepted H :=
  unfold try_ in H;
  repeat match type of H with
         | context [match ?r with Ok _ => _ | Raise _ => _ end] =>
             destruct r eqn:?; try discriminate H
         end;
  inversion H; subst.

Lemma electronic_load_ok (e : element) (d : device_info) :
  electronic_load int_of_text float_of_text e = Ok d ->
  is_load d = true /\ read_from e d.
Proof.
  unfold electronic_load. intros H. accepted H.
  split; [reflexivity|]. unfold read_from. cbn [info_id info_ip info_port]. eauto.
Qed.

Lemma power_supply_ok (e : element) (d : device_info) :
  power_supply int_of_text float_of_text e = Ok d ->
  is_load d = false /\ read_from e d.
Proof.
  unfold power_supply. intros H. accepted H.
  split; [reflexivity|]. unfold read_from. cbn [info_id info_ip info_port]. eauto.
Qed.

(** X15. When a document is loaded, the list holds one device for each
    [ElectronicLoad] element under [ElectronicLoads], in document order,
    followed by one device for each [PowerSupply] element under
    [PowerSupplys], in document order: the loads come before the supplies
    wherever the two groups stand in the document.  The id, the address and
    the port of a device are read from the first [ID], [IP] and [Port]
    children of its element. *)
Theorem loads_come_before_supplies (file_path : string) (root : element)
    (ds : list device_info) :
  fs file_path = Document root ->
  read_devices_from_xml fs int_of_text float_of_text file_path = Ok ds ->
  exists loads supplies,
    ds = (loads ++ supplies)%list
    /\ Forall2 (fun e d => is_load d = true /\ read_from e d)
         (findall_path "ElectronicLoads" "ElectronicLoad" root) loads
    /\ Forall2 (fun e d => is_load d = false /\ read_from e d)
         (findall_path "PowerSupplys" "PowerSupply" root) supplies.
Proof.
  intros Hfs H. unfold read_devices_from_xml, ET_parse in H. rewrite Hfs in H.
  cbn [try_] in H. unfold devices_of_root, try_ in H.
  destruct (collect (findall_path "ElectronicLoads" "ElectronicLoad" root)
              (electronic_load int_of_text float_of_text)) as [loads|e] eqn:Hl;
    [|discriminate].
  destruct (collect (findall_path "PowerSupplys" "PowerSupply" root)
              (power_supply int_of_text float_of_text)) as [supplies|e] eqn:Hs;
    [|discriminate].
  inversion H; subst. exists loads, supplies. split; [reflexivity|]. split.
  - eapply Forall2_impl; [|apply collect_ok; exact Hl].
    intros e d. apply electronic_load_ok.
  - eapply Forall2_impl; [|apply collect_ok; exact Hs].
    intros e d. apply power_supply_ok.
Qed.

End LoaderOrder.

(** A document with the supplies first. *)
Lemma loads_come_before_supplies_witness :
  let root :=
    Element "Devices" None
      [ Element "PowerSupplys" None
          [ Element "PowerSupply" None
              [ leaf "ID" "P3"; leaf "IP" "10.0.0.3"; leaf "Port" "5025";
                Element "VoltageValues" None [ xml_setting "1" "12.0" ];
                Element "CurrentValues" None [ xml_setting "1" "2.0" ] ] ];
        Element "ElectronicLoads" None
          [ Element "ElectronicLoad" None
              [ leaf "ID" "L1"; leaf "IP" "10.0.0.1"; leaf "Port" "5025";
                Element "Channels" None [ xml_channel "1" "A" "VOLT" "5.0" ] ] ] ] in
  exists ds,
    read_devices_from_xml (fun _ => Document root) int_dec float_dec "swapped.xml" = Ok ds
    /\ map info_id ds = [Some "L1"; Some "P3"]
    /\ map is_load ds = [true; false].
Proof.
  cbv zeta. eexists. split; [reflexivity|].
  match goal with
  | |- map info_id ?ds = _ /\ _ =>
      destruct (loads_come_before_supplies
                  (fun _ => Document
                     (Element "Devices" None
                        [ Element "PowerSupplys" None
                            [ Element "PowerSupply" None
                                [ leaf "ID" "P3"; leaf "IP" "10.0.0.3"; leaf "Port" "5025";
                                  Element "VoltageValues" None [ xml_setting "1" "12.0" ];
                                  Element "CurrentValues" None [ xml_setting "1" "2.0" ] ] ];
                          Element "ElectronicLoads" None
                            [ Element "ElectronicLoad" None
                                [ leaf "ID" "L1"; leaf "IP" "10.0.0.1"; leaf "Port" "5025";
                                  Element "Channels" None
                                    [ xml_channel "1" "A" "VOLT" "5.0" ] ] ] ]))
                  int_dec float_dec "swapped.xml" _ ds eq_refl eq_refl)
        as (loads & supplies & E & _)
  end.
  split; reflexivity.
Defined.

(** ** The grid of the logging screen *)

Lemma for_each_app (S X : Type) (xs ys : list X) (body : X -> M S unit) (s : S) :
  for_each (xs ++ ys) body s = (for_each xs body ;; for_each ys body) s.
Proof.
  revert s. induction xs as [|x xs IH]; intros s; cbn [app for_each].
  - reflexivity.
  - unfold bind in *. destruct (body x s) as [[[]|e] s1]; [|reflexivity].
    rewrite IH. reflexivity.
Qed.

Lemma for_each_map (S X Y : Type) (f : X -> Y) (xs : list X) (body : Y -> M S unit) (s : S) :
  for_each (map f xs) body s = for_each xs (fun x => body (f x)) s.
Proof.
  revert s. induction xs as [|x xs IH]; intros s; cbn [map for_each]; [reflexivity|].
  unfold bind. destruct (body (f x) s) as [[[]|e] s1]; [apply IH | reflexivity].
Qed.

(** The texts of the frames made for a device, in their order. *)
Definition labels_of (d : device_info) : list string :=
  match d with
  | LoadInfo _ _ _ channels => map (fun ch => str_text (ci_name ch)) channels
  | SupplyInfo _ _ _ voltage_channels current_channels =>
      (map (fun ch => ("Voltage Channel " ++ str_int (s_number ch))%string) voltage_channels
       ++ map (fun ch => ("Current Channel " ++ str_int (s_number ch))%string)
            current_channels)%list
  end.

(** The cell of the k-th frame of a grid: eight frames to a row. *)
Definition cell_of (k : nat) : Z * Z := (Z.of_nat k / 8, Z.of_nat k mod 8).

(** The grid is filled row after row, its variables name the next cell. *)
Definition filled (g : grid) : Prop :=
  (g_row g, g_col g) = cell_of (List.length (g_cells g))
  /\ forall k p, nth_error (g_cells g) k = Some p -> (p_row p, p_col p) = cell_of k.

Lemma cell_of_next (n : nat) :
  cell_of (S n) =
    (if snd (cell_of n) + 1 =? 8 then fst (cell_of n) + 1 else fst (cell_of n),
     if snd (cell_of n) + 1 =? 8 then 0 else snd (cell_of n) + 1).
Proof.
  unfold cell_of. cbn [fst snd]. rewrite Nat2Z.inj_succ.
  destruct (Z.eqb_spec (Z.of_nat n mod 8 + 1) 8) as [E|E]; f_equal;
    Z.to_euclidean_division_equations; lia.
Qed.

Lemma add_frame_filled (text : string) (g : grid) :
  filled g ->
  exists g',
    add_frame text g = (Ok tt, g')
    /\ filled g'
    /\ map p_label (g_cells g') = (map p_label (g_cells g) ++ [text])%list.
Proof.
  intros [Hnext Hcells]. eexists. split; [reflexivity|].
  unfold filled. cbn [g_cells g_row g_col]. split; [split|].
  - rewrite length_app. cbn [List.length]. rewrite Nat.add_1_r, cell_of_next.
    rewrite <- Hnext. reflexivity.
  - intros k p Hk. destruct (Nat.lt_ge_cases k (List.length (g_cells g))) as [Hlt|Hge].
    + rewrite nth_error_app1 in Hk by exact Hlt. apply Hcells. exact Hk.
    + rewrite nth_error_app2 in Hk by exact Hge.
      destruct (k - List.length (g_cells g))%nat as [|m] eqn:Hm.
      * cbn in Hk. inversion Hk; subst p. cbn [p_row p_col].
        replace k with (List.length (g_cells g)) by lia. exact Hnext.
      * cbn in Hk. destruct m; discriminate.
  - rewrite map_app. reflexivity.
Qed.

Lemma add_frames_filled (texts : list string) (g : grid) :
  filled g ->
  exists g',
    for_each texts add_frame g = (Ok tt, g')
    /\ filled g'
    /\ map p_label (g_cells g') = (map p_label (g_cells g) ++ texts)%list.
Proof.
  revert g. induction texts as [|text texts IH]; intros g Hg.
  - exists g. cbn. rewrite app_nil_r. auto.
  - destruct (add_frame_filled text g Hg) as (g1 & H1 & Hf1 & Hl1).
    destruct (IH g1 Hf1) as (g2 & H2 & Hf2 & Hl2).
    exists g2. cbn [for_each]. unfold bind. rewrite H1. split; [exact H2|].
    split; [exact Hf2|]. rewrite Hl2, Hl1, <- app_assoc. reflexivity.
Qed.

Lemma cell_of_injective (a b : nat) : cell_of a = cell_of b -> a = b.
Proof.
  unfold cell_of. intros H. inversion H as [[Hq Hr]].
  apply Nat2Z.inj. rewrite (Z.div_mod (Z.of_nat a) 8), (Z.div_mod (Z.of_nat b) 8) by lia.
  rewrite Hq, Hr. reflexivity.
Qed.

(** X16. The grid of the logging screen has one frame for each channel of
    each load, labelled with the channel's name, and one frame for each
    voltage and each current channel of each supply, labelled with its
    number, in the order of the device list.  The frames fill the grid row
    after row, eight to a row: the k-th frame, counted from 0, is in row
    k // 8 and column k % 8, so no two frames share a cell. *)
Theorem grid_is_filled_by_rows (devices : list device_info) :
  let frames := setup_logging_display devices in
  map p_label frames = flat_map labels_of devices
  /\ (forall k p, nth_error frames k = Some p ->
        p_row p = Z.of_nat k / 8 /\ p_col p = Z.of_nat k mod 8)
  /\ NoDup (map (fun p => (p_row p, p_col p)) frames).
Proof.
  cbv zeta. unfold setup_logging_display.
  set (body := fun device : device_info => _).
  set (g0 := {| g_cells := []; g_row := 0; g_col := 0 |}).
  assert (Hflat : forall ds g,
            for_each ds body g = for_each (flat_map labels_of ds) add_frame g).
  { induction ds as [|d ds IH]; intros g; [reflexivity|].
    cbn [for_each flat_map]. rewrite for_each_app. unfold bind at 1 2.
    assert (Hd : body d g = for_each (labels_of d) add_frame g).
    { destruct d as [id ip port channels | id ip port vs cs]; unfold body;
        cbn [labels_of].
      - rewrite for_each_map. reflexivity.
      - rewrite for_each_app. unfold bind. rewrite !for_each_map.
        destruct (for_each vs _ g) as [[[]|e] g1]; [|reflexivity].
        rewrite for_each_map. reflexivity. }
    rewrite Hd. destruct (for_each (labels_of d) add_frame g) as [[[]|e] g1];
      [apply IH | reflexivity]. }
  rewrite Hflat.
  assert (H0 : filled g0) by (split; [reflexivity | intros [|k] p Hk; discriminate]).
  destruct (add_frames_filled (flat_map labels_of devices) g0 H0)
    as (g & -> & [_ Hcells] & Hlabels).
  cbn [snd]. split; [exact Hlabels|]. split.
  - intros k p Hk. specialize (Hcells k p Hk). unfold cell_of in Hcells.
    inversion Hcells. split; reflexivity.
  - apply NoDup_nth_error. intros i j Hi Hij. rewrite length_map in Hi.
    rewrite !nth_error_map in Hij.
    destruct (nth_error (g_cells g) i) as [p|] eqn:Ei.
    2:{ apply nth_error_None in Ei. lia. }
    destruct (nth_error (g_cells g) j) as [q|] eqn:Ej; [|discriminate].
    cbn [option_map] in Hij. inversion Hij as [[Hr Hc]].
    pose proof (Hcells i p Ei) as Hp. pose proof (Hcells j q Ej) as Hq.
    apply cell_of_injective. rewrite <- Hp, <- Hq, Hr, Hc. reflexivity.
Qed.

(** ** The initialization screen *)





Lemma start_initialize_refuses (s : Screen) :
  mw_devices (main s) = None \/ mw_devices (main s) = Some [] ->
  start_initialize s =
    (Ok None,
     set_main (set_dialogs (dialogs (main s)
                            ++ [critical "Hata" "Lütfen önce XML dosyasını yükleyin."])
                 (main s)) s).
Proof.
  intros H. unfold start_initialize, bind, get.
  destruct H as [-> | ->]; reflexivity.
Qed.

Section ScreenFacts.

Variable net : network.
Variable str_float : float -> string.



(** X17. A document without devices is loaded with the dialog of success,
    and the initialization then refuses it as if nothing had been loaded:
    an empty list is refused like no list, with the request to load the
    document first; the progress bar and the status list are not reset and
    no worker is made. *)
Theorem empty_document_is_loaded_and_refused (fs : string -> file)
    (int_of_text : string -> option Z) (float_of_text : string -> option float)
    (file_path : string) (root : element) (s : Screen) :
  truthy file_path = true ->
  fs file_path = Document root ->
  findall_path "ElectronicLoads" "ElectronicLoad" root = [] ->
  findall_path "PowerSupplys" "PowerSupply" root = [] ->
  let loaded := snd (on_main (load_xml fs int_of_text float_of_text file_path) s) in
  main loaded =
    set_dialogs (dialogs (main s) ++ [information "Başarılı" "XML dosyası başarıyla yüklendi."])
      (set_devices (Some []) (main s))
  /\ start_initialize loaded =
       (Ok None,
        set_main (set_dialogs (dialogs (main loaded)
                               ++ [critical "Hata" "Lütfen önce XML dosyasını yükleyin."])
                    (main loaded)) loaded).
Proof.
  intros Hp Hfs Hl Hs loaded.
  assert (Hm : main loaded =
               set_dialogs (dialogs (main s)
                            ++ [information "Başarılı" "XML dosyası başarıyla yüklendi."])
                 (set_devices (Some []) (main s))).
  { unfold loaded, on_main, zoom, load_xml. rewrite Hp. cbn [negb].
    unfold try_except, bind, call, read_devices_from_xml, ET_parse. rewrite Hfs.
    cbn [try_]. unfold devices_of_root. rewrite Hl, Hs. cbn [collect try_ app].
    destruct s as [w bar items]. destruct w. reflexivity. }
  split; [exact Hm|]. apply start_initialize_refuses. right. rewrite Hm.
  destruct s as [w bar items]. destruct w. reflexivity.
Qed.


End ScreenFacts.

(** An empty document on a screen that shows an earlier initialization. *)
Lemma empty_document_is_loaded_and_refused_witness :
  let loaded :=
    snd (on_main (load_xml (fun _ => Document empty_root) int_dec float_dec "empty.xml")
           loaded_screen) in
  mw_devices (main loaded) = Some []
  /\ fst (start_initialize loaded) = Ok None
  /\ progress_bar (snd (start_initialize loaded)) = 50.
Proof.
  cbv zeta.
  destruct (empty_document_is_loaded_and_refused (fun _ => Document empty_root)
              int_dec float_dec "empty.xml" empty_root loaded_screen
              eq_refl eq_refl eq_refl eq_refl) as [Hm Hs].
  cbv zeta in *. rewrite Hs, Hm. repeat split.
Defined.


(** ** The links of the devices that are dropped *)

Section DroppedLinks.

Variable net : network.
Variable str_float : float -> string.


End DroppedLinks.

